(** * SpECTRE: the [Variables] container and the DG-subcell hybrid solver

    A shallow embedding of the parts of the repository that the specification
    talks about.

    - [VariablesModel] embeds [Variables::initialize],
      [Variables::set_data_ref] and [Variables::add_reference_variable_data]
      of [DataStructures/Variables.hpp]: the object is a record with the
      private members of the class, [size_t] arithmetic wraps at [2^64], and
      [ERROR] / [ASSERT] are outcomes of the operations.
    - [ActiveGridModel] follows sections 4.2 and 4.3 of the specification:
      the sources of [Evolution/DgSubcell] are listed in its
      [CMakeLists.txt] and configured in the input files ([FdToDgTci]), the
      files themselves are not at hand.
    - [VariablesOperations] embeds more of [Variables.hpp] on top of
      [VariablesModel]: the layout of the tensors, the storage that
      [initialize] chooses and fills, the move operations and [swap], the
      multiplication by a vector, the views of subsets and
      [contains_allocations]. *)

From Stdlib Require Import Arith NArith Bool List Lia String.
Import ListNotations.

(** ** Outcomes of an operation: it returns, or the run is aborted *)

Module Outcome.

(** The reasons for which the code under study stops the program. *)
Inductive failure : Type :=
| error_raised (message : string) (values : list N)
| assertion_failed (message : string) (values : list N)
| bad_alloc.

Inductive outcome (A : Type) : Type :=
| Returns (a : A)
| Aborts (f : failure).

Arguments Returns {A} a.
Arguments Aborts {A} f.

Definition bind {A B : Type} (c : outcome A) (k : A -> outcome B)
  : outcome B :=
  match c with
  | Returns a => k a
  | Aborts f => Aborts f
  end.

End Outcome.

Import Outcome.

Declare Scope outcome_scope.
Delimit Scope outcome_scope with outcome.
Notation "x <- c ;; k" := (bind c (fun x => k))
  (at level 61, c at next level, right associativity) : outcome_scope.
Notation "c ;;; k" := (bind c (fun _ => k))
  (at level 61, right associativity) : outcome_scope.

(** ** Variables.hpp *)

Module VariablesModel.

Local Open Scope N_scope.
Local Open Scope outcome_scope.

(** [size_t] is a 64-bit unsigned integer: a product wraps around. *)
Definition size_t_modulus : N := 2 ^ 64.
Definition size_t (x : N) : N := x mod size_t_modulus.

(** A [value_type*].  The memory a [Variables] can point into is its own
    [variable_data_impl_static_] array, the allocation held by its
    [variable_data_impl_dynamic_], or memory of somebody else, which is
    addressed absolutely. *)
Inductive pointer : Type :=
| nullptr
| static_storage (index : N)
| dynamic_storage (index : N)
| external_storage (address : N).

Definition is_null (p : pointer) : bool :=
  match p with
  | nullptr => true
  | _ => false
  end.

(** [p + k]; arithmetic on the null pointer has no meaning in C++ and is
    left at [nullptr]. *)
Definition pointer_add (p : pointer) (k : N) : pointer :=
  match p with
  | nullptr => nullptr
  | static_storage i => static_storage (i + k)
  | dynamic_storage i => dynamic_storage (i + k)
  | external_storage a => external_storage (size_t (a + k))
  end.

(** [pointer_type], a [blaze::CustomVector]: a pointer and a length, it owns
    nothing. *)
Record custom_vector : Type := mk_custom_vector {
  cv_data : pointer;
  cv_size : N
}.

(** [pointer_type{}] *)
Definition cv_empty : custom_vector := mk_custom_vector nullptr 0.

(** [variable_data_.reset(start, n)] *)
Definition cv_reset (start : pointer) (n : N) : custom_vector :=
  mk_custom_vector start n.

(** [&variable_data_[k]] *)
Definition cv_element_address (cv : custom_vector) (k : N) : pointer :=
  pointer_add (cv_data cv) k.

(** Modelled from the spec: the class [VectorImpl] behind [DataVector] is
    missing from the sources at hand; section 9 of the specification describes
    the per-field views as non-owning references into the contiguous buffer,
    so a component of a tensor that was given to [set_data_ref] is the pair of
    the start pointer and the number of elements. *)
Record data_vector_ref : Type := mk_data_vector_ref {
  dv_data : pointer;
  dv_size : N
}.

Definition dv_set_data_ref (start : pointer) (n : N) : data_vector_ref :=
  mk_data_vector_ref start n.

Section Variables.

(** The template parameters and the build configuration. *)

(** [value_type], [double] or [std::complex<double>] in practice *)
Variable value_type : Type.
(** [Tags::type::size()] for each tag of the list, in order *)
Variable tensor_sizes : list N.
(** [SPECTRE_DEBUG]: [ASSERT] is checked only when it is defined *)
Variable spectre_debug : bool.
(** [SPECTRE_NAN_INIT] *)
Variable spectre_nan_init : bool.
(** [make_signaling_NaN<value_type>()] *)
Variable signaling_NaN : value_type.
(** what [operator new[]] hands back for a request of that many elements:
    [make_unique_for_overwrite] leaves the elements as they are *)
Variable fresh_storage : N -> N -> value_type.
(** whether the allocator can serve a request of that many elements *)
Variable can_allocate : N -> bool.

(** [(... + Tags::type::size())] *)
Definition number_of_independent_components : N :=
  size_t (fold_left N.add tensor_sizes 0).

Definition buffer : Type := N -> value_type.

(** Memory that does not belong to the object. *)
Definition memory : Type := N -> value_type.

(** Modelled from the spec: the macro [ERROR] of
    [Utilities/ErrorHandling/Error.hpp] is missing from the sources at hand;
    section 7 of the specification has such errors abort the run with a
    diagnostic message. *)
Definition ERROR {A : Type} (message : string) (values : list N)
  : outcome A :=
  Aborts (error_raised message values).

(** Modelled from the spec: the macro [ASSERT] of
    [Utilities/ErrorHandling/Assert.hpp] is missing from the sources at hand;
    it checks its condition in Debug builds only and aborts like [ERROR]
    when the condition fails (section 5: the core asserts its
    preconditions). *)
Definition ASSERT (condition : bool) (message : string) (values : list N)
  : outcome unit :=
  if spectre_debug && negb condition
  then Aborts (assertion_failed message values)
  else Returns tt.

(** The data members of [Variables<tmpl::list<Tags...>>]. *)
Record Variables : Type := mk_Variables {
  variable_data_impl_static_ : buffer;
  variable_data_impl_dynamic_ : option buffer;
  owning_ : bool;
  size_ : N;
  number_of_grid_points_ : N;
  variable_data_ : custom_vector;
  reference_variable_data_ : list (list data_vector_ref)
}.

Definition number_of_grid_points (v : Variables) : N :=
  number_of_grid_points_ v.
Definition size (v : Variables) : N := size_ v.
Definition data (v : Variables) : pointer := cv_data (variable_data_ v).
Definition is_owning (v : Variables) : bool := owning_ v.

(** Assignments to single members. *)
Definition set_dynamic (d : option buffer) (v : Variables) : Variables :=
  mk_Variables (variable_data_impl_static_ v) d (owning_ v) (size_ v)
    (number_of_grid_points_ v) (variable_data_ v)
    (reference_variable_data_ v).
Definition set_static (b : buffer) (v : Variables) : Variables :=
  mk_Variables b (variable_data_impl_dynamic_ v) (owning_ v) (size_ v)
    (number_of_grid_points_ v) (variable_data_ v)
    (reference_variable_data_ v).
Definition set_owning (o : bool) (v : Variables) : Variables :=
  mk_Variables (variable_data_impl_static_ v) (variable_data_impl_dynamic_ v)
    o (size_ v) (number_of_grid_points_ v) (variable_data_ v)
    (reference_variable_data_ v).
Definition set_size (s : N) (v : Variables) : Variables :=
  mk_Variables (variable_data_impl_static_ v) (variable_data_impl_dynamic_ v)
    (owning_ v) s (number_of_grid_points_ v) (variable_data_ v)
    (reference_variable_data_ v).
Definition set_number_of_grid_points (n : N) (v : Variables) : Variables :=
  mk_Variables (variable_data_impl_static_ v) (variable_data_impl_dynamic_ v)
    (owning_ v) (size_ v) n (variable_data_ v) (reference_variable_data_ v).
Definition set_variable_data (cv : custom_vector) (v : Variables)
  : Variables :=
  mk_Variables (variable_data_impl_static_ v) (variable_data_impl_dynamic_ v)
    (owning_ v) (size_ v) (number_of_grid_points_ v) cv
    (reference_variable_data_ v).
Definition set_reference_variable_data (r : list (list data_vector_ref))
  (v : Variables) : Variables :=
  mk_Variables (variable_data_impl_static_ v) (variable_data_impl_dynamic_ v)
    (owning_ v) (size_ v) (number_of_grid_points_ v) (variable_data_ v) r.

(** [variable_data_impl_dynamic_.get()] *)
Definition dynamic_get (v : Variables) : pointer :=
  match variable_data_impl_dynamic_ v with
  | Some _ => dynamic_storage 0
  | None => nullptr
  end.

(** The [for] loop over the components of one tensor in
    [add_reference_variable_data]: component [i] refers to
    [&variable_data_[variable_offset++ * number_of_grid_points_]]. *)
Fixpoint component_references (view : custom_vector) (grid_points : N)
  (variable_offset : N) (components : nat) : list data_vector_ref :=
  match components with
  | O => []
  | S rest =>
      dv_set_data_ref
        (cv_element_address view (size_t (variable_offset * grid_points)))
        grid_points
      :: component_references view grid_points
           (size_t (variable_offset + 1)) rest
  end.

(** [tmpl::for_each<tags_list>] around that loop; [variable_offset] runs on
    from one tensor to the next. *)
Fixpoint tensor_references (view : custom_vector) (grid_points : N)
  (variable_offset : N) (sizes : list N) : list (list data_vector_ref) :=
  match sizes with
  | [] => []
  | s :: rest =>
      component_references view grid_points variable_offset (N.to_nat s)
      :: tensor_references view grid_points (size_t (variable_offset + s))
           rest
  end.

Definition size_mismatch_message : string :=
  "Size mismatch: this is an internal inconsistency bug in Variables.".

(** [Variables::add_reference_variable_data] *)
Definition add_reference_variable_data (v : Variables) : outcome Variables :=
  if size_ v =? 0 then Returns v
  else
    let v :=
      if is_owning v then
        if number_of_grid_points_ v =? 1
        then set_variable_data (cv_reset (static_storage 0) (size_ v)) v
        else set_variable_data (cv_reset (dynamic_get v) (size_ v)) v
      else v in
    ASSERT ((cv_size (variable_data_ v) =? size_ v)
            && (size_ v =? size_t (number_of_grid_points_ v
                                   * number_of_independent_components)))
      size_mismatch_message
      [cv_size (variable_data_ v); size_ v;
       size_t (number_of_grid_points_ v * number_of_independent_components)]
    ;;;
    Returns
      (set_reference_variable_data
         (tensor_references (variable_data_ v) (number_of_grid_points_ v) 0
            tensor_sizes)
         v).

(** [std::fill(first, first + n, x)] through a pointer into the storage of
    [v] or into foreign memory. *)
Definition fill_buffer (b : buffer) (first n : N) (x : value_type) : buffer :=
  fun i => if (first <=? i) && (i <? first + n) then x else b i.

Definition fill (v : Variables) (m : memory) (first : pointer) (n : N)
  (x : value_type) : Variables * memory :=
  match first with
  | nullptr => (v, m)
  | static_storage i =>
      (set_static (fill_buffer (variable_data_impl_static_ v) i n x) v, m)
  | dynamic_storage i =>
      match variable_data_impl_dynamic_ v with
      | Some b => (set_dynamic (Some (fill_buffer b i n x)) v, m)
      | None => (v, m)
      end
  | external_storage a => (v, fill_buffer m a n x)
  end.

(** [cpp20::make_unique_for_overwrite<value_type[]>(n)] *)
Definition make_unique_for_overwrite (n : N) : outcome buffer :=
  if can_allocate n then Returns (fresh_storage n) else Aborts bad_alloc.

Definition initialize_non_owning_message : string :=
  "Variables::initialize cannot be called on a non-owning Variables.  This likely happened because of an attempted resize.".

(** [Variables::initialize(size_t number_of_grid_points)] *)
Definition initialize (v : Variables) (m : memory) (grid_points : N)
  : outcome (Variables * memory) :=
  let v :=
    if number_of_grid_points_ v =? 0
    then set_number_of_grid_points 0 (set_size 0 (set_dynamic None v))
    else v in
  if number_of_grid_points_ v =? grid_points then Returns (v, m)
  else if negb (is_owning v) then
    ERROR initialize_non_owning_message
      [number_of_grid_points_ v; grid_points]
  else
    let v := set_number_of_grid_points grid_points v in
    let v :=
      set_size (size_t (grid_points * number_of_independent_components)) v in
    if 0 <? size_ v then
      v <- (if number_of_grid_points_ v =? 1
            then Returns (set_dynamic None v)
            else (b <- make_unique_for_overwrite (size_ v) ;;
                  Returns (set_dynamic (Some b) v))) ;;
      v <- add_reference_variable_data v ;;
      if spectre_debug || spectre_nan_init
      then Returns (fill v m (data v) (size_ v) signaling_NaN)
      else Returns (v, m)
    else Returns (v, m).

(** [Variables::initialize(size_t number_of_grid_points, value_type value)] *)
Definition initialize_with_value (v : Variables) (m : memory)
  (grid_points : N) (value : value_type) : outcome (Variables * memory) :=
  r <- initialize v m grid_points ;;
  Returns (fill (fst r) (snd r) (data (fst r)) (size_ (fst r)) value).

Definition set_data_ref_message : string :=
  "The size must be a multiple of the number of independent components since we calculate the number of grid points from the size and number of independent components.".

(** [Variables::set_data_ref(pointer const start, const size_t size)] *)
Definition set_data_ref (v : Variables) (start : pointer) (size : N)
  : outcome Variables :=
  let v := set_dynamic None v in
  v <- (if is_null start then
          Returns
            (set_number_of_grid_points 0
               (set_size 0 (set_variable_data cv_empty v)))
        else
          let v := set_size size v in
          let v := set_variable_data (cv_reset start (size_ v)) v in
          ASSERT (size_ v mod number_of_independent_components =? 0)
            set_data_ref_message
            [size_ v; number_of_independent_components] ;;;
          Returns
            (set_number_of_grid_points
               (size_ v / number_of_independent_components) v)) ;;
  let v := set_owning false v in
  add_reference_variable_data v.

(** The members as their default member initializers leave them; the
    elements of the static array are whatever the storage of the object
    held. *)
Definition default_members (storage : buffer) : Variables :=
  mk_Variables storage None true 0 0 cv_empty
    (map (fun s => repeat (dv_set_data_ref nullptr 0) (N.to_nat s))
       tensor_sizes).

(** [Variables::Variables()] *)
Definition Variables_default (storage : buffer) : Variables :=
  default_members storage.

(** [Variables::Variables(size_t number_of_grid_points)] *)
Definition Variables_sized (storage : buffer) (m : memory) (grid_points : N)
  : outcome (Variables * memory) :=
  initialize (default_members storage) m grid_points.

(** [Variables::Variables(pointer start, size_t size)] *)
Definition Variables_view (storage : buffer) (start : pointer) (size : N)
  : outcome Variables :=
  set_data_ref (default_members storage) start size.

(** What a reader of the object sees: the [size()] values behind [data()];
    [None] where the pointer does not lead to live storage. *)
Definition load (v : Variables) (m : memory) (p : pointer)
  : option value_type :=
  match p with
  | nullptr => None
  | static_storage i => Some (variable_data_impl_static_ v i)
  | dynamic_storage i =>
      match variable_data_impl_dynamic_ v with
      | Some b => Some (b i)
      | None => None
      end
  | external_storage a => Some (m a)
  end.

Definition data_values (v : Variables) (m : memory)
  : list (option value_type) :=
  map (fun k => load v m (pointer_add (data v) (N.of_nat k)))
    (seq 0 (N.to_nat (size v))).

(** The consistency that [add_reference_variable_data] asserts of the
    members. *)
Definition class_invariant (v : Variables) : Prop :=
  size_ v = size_t (number_of_grid_points_ v
                    * number_of_independent_components).

(** *** Properties of the members *)

Lemma ASSERT_true (message : string) (values : list N) :
  ASSERT true message values = Returns tt.
Proof.
  unfold ASSERT. rewrite andb_false_r. reflexivity.
Qed.

Lemma ASSERT_returns (condition : bool) (message : string)
  (values : list N) (u : unit) :
  ASSERT condition message values = Returns u ->
  spectre_debug = true -> condition = true.
Proof.
  unfold ASSERT. intros H Hd. rewrite Hd in H.
  destruct condition; [reflexivity | discriminate].
Qed.

(** [add_reference_variable_data] touches the view and the references of
    the tensors only. *)
Lemma add_reference_variable_data_members (v v' : Variables) :
  add_reference_variable_data v = Returns v' ->
  size_ v' = size_ v
  /\ number_of_grid_points_ v' = number_of_grid_points_ v
  /\ owning_ v' = owning_ v
  /\ variable_data_impl_dynamic_ v' = variable_data_impl_dynamic_ v
  /\ variable_data_impl_static_ v' = variable_data_impl_static_ v.
Proof.
  unfold add_reference_variable_data.
  destruct (size_ v =? 0).
  - intros H. injection H as <-. repeat split.
  - match goal with
    | |- context [ASSERT ?c ?s ?l] => destruct (ASSERT c s l) as [[]|f]
    end; simpl; [|discriminate].
    intros H. injection H as <-.
    unfold is_owning.
    destruct v as [st dy [|] sz ng vd rf]; simpl;
      [destruct (ng =? 1)|]; simpl; repeat split; reflexivity.
Qed.

(** A view keeps the pointer it was given. *)
Lemma add_reference_variable_data_non_owning (v v' : Variables) :
  add_reference_variable_data v = Returns v' ->
  owning_ v = false ->
  variable_data_ v' = variable_data_ v.
Proof.
  unfold add_reference_variable_data, is_owning.
  intros H Ho. rewrite Ho in H.
  destruct (size_ v =? 0).
  - injection H as <-. reflexivity.
  - match type of H with
    | context [ASSERT ?c ?s ?l] => destruct (ASSERT c s l) as [[]|f]
    end; simpl in H; [|discriminate].
    injection H as <-. reflexivity.
Qed.

(** [std::fill] writes elements, the bookkeeping of the object is as
    before. *)
Lemma fill_members (v : Variables) (m : memory) (first : pointer) (n : N)
  (x : value_type) :
  size_ (fst (fill v m first n x)) = size_ v
  /\ number_of_grid_points_ (fst (fill v m first n x))
     = number_of_grid_points_ v
  /\ owning_ (fst (fill v m first n x)) = owning_ v
  /\ variable_data_ (fst (fill v m first n x)) = variable_data_ v.
Proof.
  unfold fill.
  destruct first as [|i|i|a]; [| |destruct (variable_data_impl_dynamic_ v)|];
    simpl; repeat split; reflexivity.
Qed.

(** The end of [initialize]: references, and the signaling NaNs of a Debug
    build. *)
Ltac initialize_tail Hadd :=
  destruct add_reference_variable_data as [?v1|] eqn:Hadd;
  cbn [bind]; [|discriminate];
  apply add_reference_variable_data_members in Hadd;
  destruct Hadd as (?Hs & ?Hn & _); simpl in *;
  destruct (spectre_debug || spectre_nan_init);
  intros H;
  [ injection H as H;
    match type of H with
    | fill ?v ?m ?p ?n ?x = _ =>
        pose proof (fill_members v m p n x) as (?Hfs & ?Hfn & _);
        rewrite H in *; simpl in *
    end
  | injection H as <- _ ];
  congruence.

(** [initialize] leaves the members consistent. *)
Lemma initialize_invariant (v v' : Variables) (m m' : memory) (n : N) :
  class_invariant v ->
  initialize v m n = Returns (v', m') ->
  class_invariant v'.
Proof.
  unfold initialize, class_invariant. intros Hinv.
  set (v0 := if number_of_grid_points_ v =? 0
             then set_number_of_grid_points 0
                    (set_size 0 (set_dynamic None v))
             else v).
  assert (H0 : size_ v0
               = size_t (number_of_grid_points_ v0
                         * number_of_independent_components)).
  { subst v0. destruct (number_of_grid_points_ v =? 0); simpl.
    - reflexivity.
    - exact Hinv. }
  destruct (number_of_grid_points_ v0 =? n).
  - intros H. injection H as <- _. exact H0.
  - destruct (negb (is_owning v0)); [discriminate|].
    cbn [size_ set_size set_number_of_grid_points number_of_grid_points_].
    destruct (0 <? size_t (n * number_of_independent_components)).
    + destruct (n =? 1); cbn [bind].
      * initialize_tail Hadd.
      * destruct make_unique_for_overwrite as [b|]; cbn [bind];
          [|discriminate].
        initialize_tail Hadd.
    + intros H. injection H as <- _. reflexivity.
Qed.

Lemma size_t_small (x : N) : x < size_t_modulus -> size_t x = x.
Proof.
  intros H. unfold size_t. apply N.mod_small. exact H.
Qed.

(** A size that is a multiple of the number of components is the number of
    grid points times the number of components, without wrap-around. *)
Lemma multiple_of_components (sz c : N) :
  sz < size_t_modulus -> sz mod c = 0 -> sz = size_t (sz / c * c).
Proof.
  intros Hlt Hmod.
  pose proof (N.div_mod' sz c) as Hdiv.
  rewrite Hmod, N.add_0_r, N.mul_comm in Hdiv.
  rewrite <- Hdiv. symmetry. apply size_t_small. exact Hlt.
Qed.

(** [set_data_ref] of a size that is a multiple of the number of components
    leaves the members consistent. *)
Lemma set_data_ref_invariant (v v' : Variables) (start : pointer) (sz : N) :
  sz < size_t_modulus ->
  sz mod number_of_independent_components = 0 ->
  set_data_ref v start sz = Returns v' ->
  class_invariant v'.
Proof.
  intros Hlt Hmod. unfold set_data_ref, class_invariant.
  destruct (is_null start); cbn [bind].
  - intros H. apply add_reference_variable_data_members in H.
    destruct H as (Hs & Hn & _). rewrite Hs, Hn. reflexivity.
  - cbn [size_ set_size set_variable_data].
    rewrite Hmod, N.eqb_refl, ASSERT_true. cbn [bind].
    intros H. apply add_reference_variable_data_members in H.
    destruct H as (Hs & Hn & _). rewrite Hs, Hn. simpl.
    apply multiple_of_components; assumption.
Qed.

(** In a Debug build the assertions see to the consistency themselves. *)
Lemma set_data_ref_invariant_debug (v v' : Variables) (start : pointer)
  (sz : N) :
  spectre_debug = true ->
  set_data_ref v start sz = Returns v' ->
  class_invariant v'.
Proof.
  intros Hd. unfold set_data_ref, class_invariant.
  destruct (is_null start); cbn [bind].
  - intros H. apply add_reference_variable_data_members in H.
    destruct H as (Hs & Hn & _). rewrite Hs, Hn. reflexivity.
  - cbn [size_ set_size set_variable_data].
    destruct (ASSERT _ _ _) as [[]|f] eqn:Ha; cbn [bind]; [|discriminate].
    apply ASSERT_returns in Ha; [|exact Hd]. apply N.eqb_eq in Ha.
    intros H.
    pose proof (add_reference_variable_data_members _ _ H)
      as (Hs & Hn & _).
    rewrite Hs, Hn. simpl.
    unfold add_reference_variable_data in H. simpl in H.
    destruct (sz =? 0) eqn:Hz.
    + apply N.eqb_eq in Hz. subst sz.
      rewrite N.Div0.div_0_l. reflexivity.
    + unfold is_owning in H. simpl in H.
      destruct (ASSERT _ _ _) as [[]|f] eqn:Hb; cbn [bind] in H;
        [|discriminate].
      apply ASSERT_returns in Hb; [|exact Hd].
      apply andb_prop in Hb. destruct Hb as [_ Hb].
      apply N.eqb_eq in Hb. exact Hb.
Qed.

(** The objects that the constructors build are consistent. *)
Lemma default_members_invariant (storage : buffer) :
  class_invariant (default_members storage).
Proof.
  unfold class_invariant. reflexivity.
Qed.

Lemma Variables_sized_invariant (storage : buffer) (m m' : memory) (n : N)
  (v : Variables) :
  Variables_sized storage m n = Returns (v, m') -> class_invariant v.
Proof.
  apply initialize_invariant, default_members_invariant.
Qed.

(** *** [Variables::initialize] *)

(** C9, amended.  For an object [v] whose size is its number of grid points
    times the number of independent components ([class_invariant], which
    [add_reference_variable_data] asserts), a call [v.initialize(n)] with
    [n] the number of grid points that [v] has already returns, and the
    size, the ownership and the data of [v] are as before: every member but
    the released [unique_ptr] of an object without grid points is the same,
    and so is foreign memory.  A call on a non-owning [v], whatever its
    size, with another [n] is the fatal [ERROR] of the function; so whenever
    [initialize] returns on a view whose size agrees with its grid points,
    the view is what it was.  Without that agreement the first part fails:
    a view of three elements with four components has no grid points, and
    [initialize(0)] takes its elements away. *)
Theorem initialize_same_grid_points_returns_and_view_resize_is_fatal
  (v : Variables) (m : memory) (n : N) :
  (number_of_grid_points v = n -> class_invariant v ->
   exists v',
     initialize v m n = Returns (v', m)
     /\ size v' = size v
     /\ is_owning v' = is_owning v
     /\ number_of_grid_points v' = number_of_grid_points v
     /\ variable_data_ v' = variable_data_ v
     /\ variable_data_impl_static_ v' = variable_data_impl_static_ v
     /\ reference_variable_data_ v' = reference_variable_data_ v
     /\ data_values v' m = data_values v m
     /\ (n <> 0 -> v' = v))
  /\ (is_owning v = false -> number_of_grid_points v <> n ->
      initialize v m n
      = ERROR initialize_non_owning_message [number_of_grid_points v; n])
  /\ (is_owning v = false -> class_invariant v ->
      forall v' m',
        initialize v m n = Returns (v', m') ->
        m' = m
        /\ is_owning v' = false
        /\ size v' = size v
        /\ number_of_grid_points v' = number_of_grid_points v
        /\ variable_data_ v' = variable_data_ v).
Proof.
  assert (Hsame : number_of_grid_points v = n -> class_invariant v ->
    exists v',
      initialize v m n = Returns (v', m)
      /\ size v' = size v
      /\ is_owning v' = is_owning v
      /\ number_of_grid_points v' = number_of_grid_points v
      /\ variable_data_ v' = variable_data_ v
      /\ variable_data_impl_static_ v' = variable_data_impl_static_ v
      /\ reference_variable_data_ v' = reference_variable_data_ v
      /\ data_values v' m = data_values v m
      /\ (n <> 0 -> v' = v)).
  { unfold number_of_grid_points, class_invariant. intros Hn Hinv.
    unfold initialize.
    destruct (number_of_grid_points_ v =? 0) eqn:Hz.
    - apply N.eqb_eq in Hz.
      assert (Hs : size_ v = 0) by (rewrite Hinv, Hz; reflexivity).
      exists (set_number_of_grid_points 0 (set_size 0 (set_dynamic None v))).
      cbn [number_of_grid_points_ set_number_of_grid_points].
      assert (Hn0 : n = 0) by congruence. subst n.
      cbn [N.eqb]. unfold size, is_owning, number_of_grid_points, data_values.
      simpl. rewrite Hs, Hz. simpl.
      repeat (split; [reflexivity|]).
      split.
      + unfold size. rewrite Hs. reflexivity.
      + intros Hne. contradiction Hne. reflexivity.
    - exists v. rewrite Hn, N.eqb_refl.
      repeat split; reflexivity. }
  assert (Hfatal : is_owning v = false -> number_of_grid_points v <> n ->
    initialize v m n
    = ERROR initialize_non_owning_message [number_of_grid_points v; n]).
  { unfold number_of_grid_points, is_owning. intros Ho Hn.
    unfold initialize.
    destruct (number_of_grid_points_ v =? 0) eqn:Hz.
    - apply N.eqb_eq in Hz.
      cbn [number_of_grid_points_ set_number_of_grid_points].
      destruct (0 =? n) eqn:He.
      + apply N.eqb_eq in He. congruence.
      + unfold is_owning. simpl. rewrite Ho, Hz. reflexivity.
    - destruct (number_of_grid_points_ v =? n) eqn:He.
      + apply N.eqb_eq in He. congruence.
      + unfold is_owning. rewrite Ho. reflexivity. }
  split; [exact Hsame|]. split; [exact Hfatal|].
  intros Ho Hinv v' m' Hret.
  destruct (N.eq_dec (number_of_grid_points v) n) as [He|Hne].
  - destruct (Hsame He Hinv) as (w & Hw & Hs & Hown & Hg & Hvd & _).
    rewrite Hw in Hret. injection Hret as <- <-.
    repeat split; try assumption. congruence.
  - rewrite (Hfatal Ho Hne) in Hret. discriminate.
Qed.

(** *** [Variables::set_data_ref] *)

(** C10.  Whenever [v.set_data_ref(start, size)] returns, [v] does not own
    its data.  With a null [start] it returns and [v] has no elements and no
    grid points.  With another [start] and a [size] that is a multiple of
    the number of independent components it returns, the number of grid
    points is the quotient and [size()] is [size]. *)
Theorem set_data_ref_is_a_view_of_the_given_size
  (v : Variables) (start : pointer) (sz : N) :
  (forall v', set_data_ref v start sz = Returns v' -> is_owning v' = false)
  /\ (start = nullptr ->
      exists v',
        set_data_ref v start sz = Returns v'
        /\ is_owning v' = false
        /\ size v' = 0
        /\ number_of_grid_points v' = 0)
  /\ (start <> nullptr ->
      sz < size_t_modulus ->
      sz mod number_of_independent_components = 0 ->
      exists v',
        set_data_ref v start sz = Returns v'
        /\ is_owning v' = false
        /\ number_of_grid_points v'
           = sz / number_of_independent_components
        /\ size v' = sz
        /\ data v' = start).
Proof.
  unfold is_owning, size, number_of_grid_points, data.
  split; [|split].
  - intros v'. unfold set_data_ref.
    destruct (is_null start); cbn [bind].
    + intros H. apply add_reference_variable_data_members in H.
      destruct H as (_ & _ & Ho & _). rewrite Ho. reflexivity.
    + destruct (ASSERT _ _ _) as [[]|f]; cbn [bind]; [|discriminate].
      intros H. apply add_reference_variable_data_members in H.
      destruct H as (_ & _ & Ho & _). rewrite Ho. reflexivity.
  - intros ->. unfold set_data_ref. cbn [is_null bind].
    unfold add_reference_variable_data. simpl.
    eexists. split; [reflexivity|]. simpl. repeat split.
  - intros Hnull Hlt Hmod. unfold set_data_ref.
    replace (is_null start) with false
      by (destruct start; [contradiction Hnull|..]; reflexivity).
    cbn [size_ set_size set_variable_data bind].
    rewrite Hmod, N.eqb_refl, ASSERT_true. cbn [bind].
    unfold add_reference_variable_data, is_owning. simpl.
    destruct (sz =? 0) eqn:Hz.
    + eexists. split; [reflexivity|]. simpl. repeat split.
    + rewrite N.eqb_refl.
      rewrite <- (multiple_of_components sz _ Hlt Hmod).
      rewrite N.eqb_refl. cbn [andb].
      rewrite ASSERT_true. cbn [bind].
      eexists. split; [reflexivity|]. simpl. repeat split.
Qed.

End Variables.

Arguments number_of_grid_points {value_type} v.
Arguments size {value_type} v.
Arguments data {value_type} v.
Arguments is_owning {value_type} v.
Arguments variable_data_ {value_type} v.
Arguments variable_data_impl_dynamic_ {value_type} v.

(** *** A scalar and a spatial vector

    [Variables<tmpl::list<Scalar, Vector>>] has [1 + 3] independent
    components.  The elements are natural numbers here, [999] stands for the
    signaling NaN, new storage holds zeros and memory for up to 1024
    elements can be had. *)

Definition sample_tags : list N := [1; 3].
Definition sample_storage : N -> N := fun _ => 0.
Definition sample_memory : N -> N := fun a => a.

Definition sample_initialize (debug : bool) (v : Variables N)
  (m : memory N) (n : N) : outcome (Variables N * memory N) :=
  initialize N sample_tags debug false 999 (fun _ _ => 0)
    (fun k => k <=? 1024) v m n.

Definition sample_set_data_ref (debug : bool) (v : Variables N)
  (start : pointer) (sz : N) : outcome (Variables N) :=
  set_data_ref N sample_tags debug v start sz.

(** What the public member functions tell about an object. *)
Definition observe (v : Variables N) : N * N * bool * pointer :=
  (number_of_grid_points v, size v, is_owning v, data v).

Definition observed {A B : Type} (f : A -> B) (c : outcome A) : outcome B :=
  bind c (fun a => Returns (f a)).

(** whether [variable_data_impl_dynamic_] holds an allocation *)
Definition holds_allocation (v : Variables N) : bool :=
  match variable_data_impl_dynamic_ v with
  | Some _ => true
  | None => false
  end.

(** [Variables v(start, 8)] over foreign memory at address 1000 *)
Definition sample_view : Variables N :=
  match sample_set_data_ref true (default_members N sample_tags sample_storage)
          (external_storage 1000) 8 with
  | Returns v => v
  | Aborts _ => default_members N sample_tags sample_storage
  end.

(** [Variables v(5); v.initialize(0);] *)
Definition sample_emptied : Variables N :=
  match
    bind (sample_initialize true
            (default_members N sample_tags sample_storage) sample_memory 5)
      (fun r => sample_initialize true (fst r) (snd r) 0)
  with
  | Returns r => fst r
  | Aborts _ => default_members N sample_tags sample_storage
  end.

Example sample_view_observed :
  observe sample_view = (2, 8, false, external_storage 1000).
Proof. reflexivity. Qed.

Example sample_view_components :
  reference_variable_data_ N sample_view
  = [[mk_data_vector_ref (external_storage 1000) 2];
     [mk_data_vector_ref (external_storage 1002) 2;
      mk_data_vector_ref (external_storage 1004) 2;
      mk_data_vector_ref (external_storage 1006) 2]].
Proof. reflexivity. Qed.

Example sample_view_same_grid_points :
  observed (fun r => observe (fst r))
    (sample_initialize true sample_view sample_memory 2)
  = Returns (2, 8, false, external_storage 1000).
Proof. reflexivity. Qed.

Example sample_view_resize :
  sample_initialize true sample_view sample_memory 3
  = Aborts (error_raised initialize_non_owning_message [2; 3]).
Proof. reflexivity. Qed.

(** A size that is no multiple of the number of components fails the
    assertion of a Debug build; without assertions the call returns an
    object whose members contradict each other, which is why the statements
    on [initialize] ask for [class_invariant]. *)
Example sample_view_of_seven_debug :
  sample_set_data_ref true (default_members N sample_tags sample_storage)
    (external_storage 1000) 7
  = Aborts (assertion_failed set_data_ref_message [7; 4]).
Proof. reflexivity. Qed.

Example sample_view_of_three_release :
  observed observe
    (sample_set_data_ref false (default_members N sample_tags sample_storage)
       (external_storage 1000) 3)
  = Returns (0, 3, false, external_storage 1000).
Proof. reflexivity. Qed.

Example sample_view_of_three_release_initialize :
  observed (fun r => observe (fst r))
    (bind
       (sample_set_data_ref false
          (default_members N sample_tags sample_storage)
          (external_storage 1000) 3)
       (fun v => sample_initialize false v sample_memory 0))
  = Returns (0, 0, false, external_storage 1000).
Proof. reflexivity. Qed.

(** [Variables v(start, 3)] over foreign memory at address 1000, in a build
    without assertions: three elements are no multiple of the four
    components, and the object has no grid points. *)
Definition sample_view_of_three : Variables N :=
  match sample_set_data_ref false
          (default_members N sample_tags sample_storage)
          (external_storage 1000) 3 with
  | Returns v => v
  | Aborts _ => default_members N sample_tags sample_storage
  end.

(** C9 as it is stated, for every object: the view of three elements has
    no grid points, [initialize(0)] asks for the number of grid points that
    it has and returns, and the view has lost its elements: [size()] was 3
    and is 0. *)
Lemma initialize_empties_a_view_of_three_elements :
  is_owning sample_view_of_three = false
  /\ number_of_grid_points sample_view_of_three = 0
  /\ size sample_view_of_three = 3
  /\ exists v' : Variables N,
       sample_initialize false sample_view_of_three sample_memory 0
       = Returns (v', sample_memory)
       /\ size v' = 0
       /\ size v' <> size sample_view_of_three.
Proof.
  repeat (split; [reflexivity|]).
  eexists. split; [reflexivity|]. split; [reflexivity|].
  vm_compute. discriminate.
Qed.

(** An owning object that was resized to no grid points still holds its
    allocation; the next [initialize(0)] releases it, and nothing of what
    the object shows changes. *)
Example sample_emptied_observed :
  observe sample_emptied = (0, 0, true, dynamic_storage 0)
  /\ holds_allocation sample_emptied = true.
Proof. split; reflexivity. Qed.

Example sample_emptied_initialize :
  observed (fun r => (observe (fst r), holds_allocation (fst r)))
    (sample_initialize true sample_emptied sample_memory 0)
  = Returns ((0, 0, true, dynamic_storage 0), false).
Proof. reflexivity. Qed.

(** The statement on [initialize], on the view of eight elements: asked for
    its two grid points it returns the same view, asked for three it
    stops. *)
Lemma initialize_sample_view :
  (exists v',
     sample_initialize true sample_view sample_memory 2
     = Returns (v', sample_memory)
     /\ size v' = size sample_view
     /\ is_owning v' = is_owning sample_view
     /\ number_of_grid_points v' = number_of_grid_points sample_view
     /\ variable_data_ v' = variable_data_ sample_view
     /\ variable_data_impl_static_ N v'
        = variable_data_impl_static_ N sample_view
     /\ reference_variable_data_ N v'
        = reference_variable_data_ N sample_view
     /\ data_values N v' sample_memory
        = data_values N sample_view sample_memory
     /\ (2 <> 0 -> v' = sample_view))
  /\ sample_initialize true sample_view sample_memory 3
     = ERROR initialize_non_owning_message
         [number_of_grid_points sample_view; 3].
Proof.
  split.
  - apply (proj1
             (initialize_same_grid_points_returns_and_view_resize_is_fatal
                N sample_tags true false 999 (fun _ _ => 0)
                (fun k => k <=? 1024) sample_view sample_memory 2)).
    + reflexivity.
    + vm_compute. reflexivity.
  - apply (proj1 (proj2
             (initialize_same_grid_points_returns_and_view_resize_is_fatal
                N sample_tags true false 999 (fun _ _ => 0)
                (fun k => k <=? 1024) sample_view sample_memory 3))).
    + reflexivity.
    + vm_compute. discriminate.
Defined.

(** The statement on [set_data_ref], on eight elements of foreign memory
    and on a null pointer. *)
Lemma set_data_ref_sample_view :
  (exists v',
     sample_set_data_ref true sample_emptied (external_storage 1000) 8
     = Returns v'
     /\ is_owning v' = false
     /\ number_of_grid_points v'
        = 8 / number_of_independent_components sample_tags
     /\ size v' = 8
     /\ data v' = external_storage 1000)
  /\ (exists v',
        sample_set_data_ref true sample_emptied nullptr 8 = Returns v'
        /\ is_owning v' = false
        /\ size v' = 0
        /\ number_of_grid_points v' = 0).
Proof.
  split.
  - apply (proj2 (proj2
             (set_data_ref_is_a_view_of_the_given_size
                N sample_tags true sample_emptied (external_storage 1000) 8))).
    + discriminate.
    + vm_compute. reflexivity.
    + vm_compute. reflexivity.
  - apply (proj1 (proj2
             (set_data_ref_is_a_view_of_the_given_size
                N sample_tags true sample_emptied nullptr 8))).
    reflexivity.
Defined.

End VariablesModel.

(** ** The active grid of an element and the hysteresis of the switch back *)

Module ActiveGridModel.

Local Open Scope nat_scope.

(** Modelled from the spec: [ActiveGrid.hpp] is missing from the sources at
    hand; section 3 has the tag with the two values [Dg] and [Subcell]. *)
Inductive ActiveGrid : Type :=
| Dg
| Subcell.

(** Modelled from the spec: the per-element state of sections 3 and 4.3:
    the active grid, and for the hysteresis policy of section 4.2 the number
    of consecutive steps without trouble that the element has spent on the
    subcells since it was last troubled. *)
Record element : Type := mk_element {
  active_grid : ActiveGrid;
  clear_steps : nat
}.

(** Modelled from the spec: the initial state of section 4.3, configurable
    per element. *)
Definition initial_element (grid : ActiveGrid) : element :=
  mk_element grid 0.

Section Hysteresis.

(** The hysteresis window, in steps; the input files set it as
    [FdToDgTci: MinimumClearTcis]. *)
Variable hysteresis_window : nat.

(** Modelled from the spec: the transitions of section 4.3, evaluated once
    per step after the troubled-cell decision.  [Dg] goes to [Subcell] when
    troubled; [Subcell] goes back to [Dg] once the element has not been
    troubled for the hysteresis window; the self-transitions change
    nothing but the count of clear steps. *)
Definition step (e : element) (troubled : bool) : element :=
  match active_grid e with
  | Dg => if troubled then mk_element Subcell 0 else e
  | Subcell =>
      if troubled then mk_element Subcell 0
      else if hysteresis_window <=? S (clear_steps e)
           then mk_element Dg 0
           else mk_element Subcell (S (clear_steps e))
  end.

(** The decisions of the steps of a run, the first step first. *)
Definition run (e : element) (decisions : list bool) : element :=
  fold_left step decisions e.

(** The number of steps without trouble that a list of decisions starts
    with, and the number that it ends with. *)
Fixpoint leading_clear (decisions : list bool) : nat :=
  match decisions with
  | false :: rest => S (leading_clear rest)
  | _ => 0
  end.

Definition trailing_clear (decisions : list bool) : nat :=
  leading_clear (rev decisions).

Lemma run_app (e : element) (ds1 ds2 : list bool) :
  run e (ds1 ++ ds2) = run (run e ds1) ds2.
Proof.
  unfold run. apply fold_left_app.
Qed.

Lemma run_snoc (e : element) (ds : list bool) (d : bool) :
  run e (ds ++ [d]) = step (run e ds) d.
Proof.
  rewrite run_app. reflexivity.
Qed.

Lemma trailing_clear_snoc (ds : list bool) (d : bool) :
  trailing_clear (ds ++ [d])
  = if d then 0 else S (trailing_clear ds).
Proof.
  unfold trailing_clear. rewrite rev_app_distr. simpl.
  destruct d; reflexivity.
Qed.

(** A troubled step leaves every element on the subcells, the count
    restarted. *)
Lemma step_troubled (e : element) : step e true = mk_element Subcell 0.
Proof.
  unfold step. destruct (active_grid e); reflexivity.
Qed.

(** On the subcells the count never exceeds the clear steps that the run
    ends with, and it stays below the window. *)
Lemma clear_steps_bounded (grid : ActiveGrid) (ds : list bool) :
  active_grid (run (initial_element grid) ds) = Subcell ->
  clear_steps (run (initial_element grid) ds) <= trailing_clear ds.
Proof.
  induction ds as [|d ds IH] using rev_ind.
  - intros _. simpl. apply Nat.le_0_l.
  - rewrite run_snoc, trailing_clear_snoc.
    destruct d.
    + rewrite step_troubled. intros _. apply Nat.le_refl.
    + unfold step.
      destruct (active_grid (run (initial_element grid) ds)) eqn:Hg.
      * rewrite Hg. discriminate.
      * destruct (hysteresis_window <=? _); simpl; [discriminate|].
        intros _. apply le_n_S, IH. reflexivity.
Qed.

(** Clear steps on the subcells are counted while the count stays below the
    window. *)
Lemma run_clear_steps (c k : nat) :
  c + k < hysteresis_window ->
  run (mk_element Subcell c) (repeat false k) = mk_element Subcell (c + k).
Proof.
  induction k as [|k IH]; intros Hk.
  - rewrite Nat.add_0_r. reflexivity.
  - replace (repeat false (S k)) with (repeat false k ++ [false])
      by (symmetry; apply repeat_cons).
    rewrite run_snoc, IH by lia.
    unfold step. simpl.
    rewrite Nat.add_succ_r.
    destruct (hysteresis_window <=? S (c + k)) eqn:Hw; [|reflexivity].
    apply Nat.leb_le in Hw. lia.
Qed.

(** C4.  An element on the subcells goes back to [Dg] only on a step that
    ends at least [hysteresis_window] consecutive steps without trouble.
    As long as the consecutive clear steps are fewer than the window the
    element stays on the subcells, and it is still there when it is troubled
    again: this covers [hysteresis_window - 1] clear steps and then
    trouble. *)
Theorem no_switch_to_Dg_within_hysteresis_window
  (grid : ActiveGrid) (ds : list bool) :
  (forall d : bool,
     active_grid (run (initial_element grid) ds) = Subcell ->
     active_grid (run (initial_element grid) (ds ++ [d])) = Dg ->
     d = false /\ hysteresis_window <= trailing_clear (ds ++ [d]))
  /\ (forall k : nat,
        active_grid (run (initial_element grid) ds) = Subcell ->
        trailing_clear ds + k < hysteresis_window ->
        active_grid (run (initial_element grid) (ds ++ repeat false k))
        = Subcell
        /\ active_grid
             (run (initial_element grid) (ds ++ repeat false k ++ [true]))
           = Subcell).
Proof.
  split.
  - intros d Hsub Hdg.
    pose proof (clear_steps_bounded grid ds Hsub) as Hbound.
    rewrite run_snoc in Hdg. rewrite trailing_clear_snoc.
    destruct d.
    + rewrite step_troubled in Hdg. discriminate.
    + split; [reflexivity|].
      unfold step in Hdg. rewrite Hsub in Hdg.
      destruct (hysteresis_window <=? _) eqn:Hw; [|discriminate].
      apply Nat.leb_le in Hw. lia.
  - intros k Hsub Hk.
    pose proof (clear_steps_bounded grid ds Hsub) as Hbound.
    split.
    + rewrite run_app.
      destruct (run (initial_element grid) ds) as [g c]. simpl in Hsub, Hbound.
      subst g. rewrite run_clear_steps by lia. reflexivity.
    + rewrite app_assoc, run_snoc, step_troubled. reflexivity.
Qed.

End Hysteresis.

(** A window of three steps: two clear steps and then trouble keep the
    element on the subcells, three clear steps bring it back. *)
Example window_of_three_chatter :
  map (fun ds => active_grid (run 3 (initial_element Dg) ds))
    [[true]; [true; false]; [true; false; false];
     [true; false; false; true]; [true; false; false; true; false; false];
     [true; false; false; true; false; false; false]]
  = [Subcell; Subcell; Subcell; Subcell; Subcell; Dg].
Proof. reflexivity. Qed.

(** The statement on the hysteresis at that window: the switch on the third
    clear step, and two clear steps followed by trouble. *)
Lemma hysteresis_window_of_three :
  (false = false
   /\ 3 <= trailing_clear ([true; false; false] ++ [false]))
  /\ active_grid (run 3 (initial_element Dg) ([true] ++ repeat false 2))
     = Subcell
  /\ active_grid
       (run 3 (initial_element Dg) ([true] ++ repeat false 2 ++ [true]))
     = Subcell.
Proof.
  split.
  - apply (proj1 (no_switch_to_Dg_within_hysteresis_window 3 Dg
                    [true; false; false]) false); reflexivity.
  - apply (proj2 (no_switch_to_Dg_within_hysteresis_window 3 Dg [true]) 2).
    + reflexivity.
    + simpl. lia.
Defined.

End ActiveGridModel.

(** ** More of Variables.hpp *)

Module VariablesOperations.

Import VariablesModel.

Local Open Scope N_scope.
Local Open Scope outcome_scope.

Section Operations.

Variable value_type : Type.
Variable tensor_sizes : list N.
Variable spectre_debug : bool.
Variable spectre_nan_init : bool.
Variable signaling_NaN : value_type.
Variable fresh_storage : N -> N -> value_type.
Variable can_allocate : N -> bool.

Local Abbreviation Variables := (Variables value_type).
Local Abbreviation memory := (memory value_type).
Local Abbreviation buffer := (buffer value_type).
Local Abbreviation components :=
  (number_of_independent_components tensor_sizes).
Local Abbreviation initialize :=
  (initialize value_type tensor_sizes spectre_debug spectre_nan_init
     signaling_NaN fresh_storage can_allocate).
Local Abbreviation initialize_with_value :=
  (initialize_with_value value_type tensor_sizes spectre_debug
     spectre_nan_init signaling_NaN fresh_storage can_allocate).
Local Abbreviation set_data_ref :=
  (set_data_ref value_type tensor_sizes spectre_debug).
Local Abbreviation add_reference_variable_data :=
  (add_reference_variable_data value_type tensor_sizes spectre_debug).
Local Abbreviation class_invariant := (class_invariant value_type tensor_sizes).
Local Abbreviation ASSERT := (ASSERT spectre_debug).
Local Abbreviation load := (load value_type).
Local Abbreviation fill := (fill value_type).
Local Abbreviation data_values := (data_values value_type).
Local Abbreviation default_members := (default_members value_type tensor_sizes).
Local Abbreviation Variables_sized :=
  (Variables_sized value_type tensor_sizes spectre_debug spectre_nan_init
     signaling_NaN fresh_storage can_allocate).

(** The number of components of tensors of these sizes, as a count. *)
Definition components_of (sizes : list N) : nat :=
  fold_right Nat.add 0%nat (map N.to_nat sizes).

(** [sizeof...(Tags)] tensors with [Tags::type::size()] components each. *)
Definition component_count : nat := components_of tensor_sizes.

(** [contains_allocations(const Variables<TagsList>& value)] *)
Definition contains_allocations (v : Variables) : bool :=
  1 <? number_of_grid_points v.

(** Whether the [unique_ptr] holds an allocation. *)
Definition holds_heap_storage (v : Variables) : bool :=
  match variable_data_impl_dynamic_ v with
  | Some _ => true
  | None => false
  end.

(** The view of an object with elements leads to the storage that
    [add_reference_variable_data] and [set_data_ref] give it: the array
    inside an owning object with one grid point, the allocation of an owning
    object with more, and foreign memory that does not run over the end of
    the address space for a view. *)
Definition storage_invariant (v : Variables) : Prop :=
  size_ _ v <> 0 ->
  cv_size (variable_data_ v) = size_ _ v
  /\ (if is_owning v
      then if number_of_grid_points_ _ v =? 1
           then data v = static_storage 0
           else data v = dynamic_storage 0
                /\ holds_heap_storage v = true
      else exists a : N,
             data v = external_storage a
             /\ a + size_ _ v <= size_t_modulus).

(** *** The tensors inside the buffer *)

Lemma size_t_idemp_add (x y : N) : size_t (size_t x + y) = size_t (x + y).
Proof.
  unfold size_t. apply N.Div0.add_mod_idemp_l.
Qed.

Lemma map_seq_shift {A : Type} (f : nat -> A) (start len : nat) :
  map f (seq start len) = map (fun i => f (start + i)%nat) (seq 0 len).
Proof.
  revert start. induction len as [|len IH]; intros start; simpl.
  - reflexivity.
  - rewrite Nat.add_0_r. f_equal.
    rewrite (IH (S start)), <- seq_shift, map_map. apply map_ext.
    intros i. f_equal. lia.
Qed.

(** The offsets of the components of one tensor count up from the offset
    that the tensor starts with. *)
Lemma component_references_offsets (view : custom_vector) (g x : N)
  (k : nat) :
  component_references view g (size_t x) k
  = map (fun i =>
           dv_set_data_ref
             (cv_element_address view (size_t (size_t (x + N.of_nat i) * g)))
             g)
      (seq 0 k).
Proof.
  revert x. induction k as [|k IH]; intros x.
  - reflexivity.
  - cbn [component_references seq map]. f_equal.
    + rewrite N.add_0_r. reflexivity.
    + rewrite size_t_idemp_add, IH, (map_seq_shift _ 1 k).
      apply map_ext. intros i.
      replace (x + 1 + N.of_nat i) with (x + N.of_nat (1 + i)) by lia.
      reflexivity.
Qed.

(** Tensor after tensor the offsets run through all the components. *)
Lemma tensor_references_offsets (view : custom_vector) (g x : N)
  (sizes : list N) :
  List.concat (tensor_references view g (size_t x) sizes)
  = map (fun i =>
           dv_set_data_ref
             (cv_element_address view (size_t (size_t (x + N.of_nat i) * g)))
             g)
      (seq 0 (components_of sizes)).
Proof.
  unfold components_of.
  revert x. induction sizes as [|s sizes IH]; intros x.
  - reflexivity.
  - cbn [tensor_references List.concat map fold_right].
    rewrite component_references_offsets, size_t_idemp_add, IH.
    rewrite seq_app, map_app. f_equal.
    rewrite (map_seq_shift _ (0 + N.to_nat s)). apply map_ext. intros i.
    replace (x + s + N.of_nat i) with (x + N.of_nat (0 + N.to_nat s + i))
      by lia.
    reflexivity.
Qed.

Lemma tensor_references_lengths (view : custom_vector) (g x : N)
  (sizes : list N) :
  map (@List.length data_vector_ref) (tensor_references view g x sizes)
  = map N.to_nat sizes.
Proof.
  assert (Hlen : forall k y,
             List.length (component_references view g y k) = k).
  { induction k as [|k IH]; intros y; simpl; [|rewrite IH]; reflexivity. }
  revert x. induction sizes as [|s sizes IH]; intros x; simpl.
  - reflexivity.
  - rewrite Hlen, IH. reflexivity.
Qed.

(** Where the products do not wrap around, component [j] begins
    [j * grid_points] elements into the view. *)
Lemma tensor_references_are_blocks (view : custom_vector) (g : N)
  (sizes : list N) :
  N.of_nat (components_of sizes) * g < size_t_modulus ->
  List.concat (tensor_references view g 0 sizes)
  = map (fun j =>
           mk_data_vector_ref (pointer_add (cv_data view) (N.of_nat j * g)) g)
      (seq 0 (components_of sizes)).
Proof.
  intros Hwrap.
  change 0 with (size_t 0) at 1. rewrite tensor_references_offsets.
  apply map_ext_in. intros j Hj. apply in_seq in Hj.
  unfold dv_set_data_ref, cv_element_address. f_equal. f_equal.
  cbn [N.add]. fold (components_of sizes) in Hj.
  destruct (N.eq_dec g 0) as [Hz|Hz].
  - rewrite Hz, !N.mul_0_r. reflexivity.
  - assert (Hj' : N.of_nat j * g < size_t_modulus).
    { eapply N.le_lt_trans; [|exact Hwrap].
      apply N.mul_le_mono_r. lia. }
    assert (Hjs : N.of_nat j < size_t_modulus).
    { eapply N.le_lt_trans; [|exact Hj'].
      rewrite <- (N.mul_1_r (N.of_nat j)) at 1.
      apply N.mul_le_mono_l. lia. }
    rewrite (size_t_small _ Hjs). apply size_t_small. exact Hj'.
Qed.

(** The references that [add_reference_variable_data] sets. *)
Lemma add_reference_variable_data_references (v v' : Variables) :
  add_reference_variable_data v = Returns v' ->
  size v <> 0 ->
  reference_variable_data_ _ v'
  = tensor_references (variable_data_ v') (number_of_grid_points v') 0
      tensor_sizes.
Proof.
  unfold size, number_of_grid_points. intros Hret Hsize.
  unfold VariablesModel.add_reference_variable_data in Hret.
  apply N.eqb_neq in Hsize. rewrite Hsize in Hret.
  destruct (VariablesModel.ASSERT _ _ _ _) as [[]|f]; cbn [bind] in Hret;
    [|discriminate].
  injection Hret as <-. reflexivity.
Qed.

(** X1.  When [add_reference_variable_data] returns for an object with
    elements, the tensors have the numbers of components of their tags, and
    the components are, in the order of the tags, consecutive blocks of
    [number_of_grid_points()] elements that start at [data()]: component [j]
    begins [j * number_of_grid_points()] elements in. *)
Theorem tensors_are_consecutive_blocks (v v' : Variables) :
  add_reference_variable_data v = Returns v' ->
  size v <> 0 ->
  N.of_nat component_count * number_of_grid_points v < size_t_modulus ->
  map (@List.length data_vector_ref) (reference_variable_data_ _ v')
  = map N.to_nat tensor_sizes
  /\ List.concat (reference_variable_data_ _ v')
     = map (fun j =>
              mk_data_vector_ref
                (pointer_add (data v')
                   (N.of_nat j * number_of_grid_points v'))
                (number_of_grid_points v'))
         (seq 0 component_count).
Proof.
  intros Hret Hsize Hwrap.
  rewrite (add_reference_variable_data_references _ _ Hret Hsize).
  apply add_reference_variable_data_members in Hret.
  destruct Hret as (_ & Hg & _).
  unfold number_of_grid_points in *. rewrite Hg.
  split.
  - apply tensor_references_lengths.
  - apply tensor_references_are_blocks. exact Hwrap.
Qed.

(** *** The storage that [initialize] chooses and fills *)

(** The view after [add_reference_variable_data]: an owning object with
    elements is pointed at its own storage, anything else keeps its view. *)
Lemma add_reference_variable_data_view (v v' : Variables) :
  add_reference_variable_data v = Returns v' ->
  variable_data_ v'
  = if size_ _ v =? 0 then variable_data_ v
    else if is_owning v then
           if number_of_grid_points_ _ v =? 1
           then cv_reset (static_storage 0) (size_ _ v)
           else cv_reset (dynamic_get _ v) (size_ _ v)
         else variable_data_ v.
Proof.
  unfold VariablesModel.add_reference_variable_data.
  destruct (size_ _ v =? 0).
  - intros H. injection H as <-. reflexivity.
  - destruct (VariablesModel.ASSERT _ _ _ _) as [[]|f]; cbn [bind];
      [|discriminate].
    intros H. injection H as <-.
    destruct (is_owning v); [destruct (_ =? 1)|]; reflexivity.
Qed.

Lemma fill_buffer_inside (b : buffer) (i n k : N) (x : value_type) :
  k < n -> fill_buffer _ b i n x (i + k) = x.
Proof.
  intros Hk. unfold fill_buffer.
  replace (i <=? i + k) with true by (symmetry; apply N.leb_le; lia).
  replace (i + k <? i + n) with true by (symmetry; apply N.ltb_lt; lia).
  reflexivity.
Qed.

Lemma load_filled (v : Variables) (m : memory) (first : pointer) (n k : N)
  (x : value_type) :
  k < n ->
  match first with
  | nullptr => False
  | static_storage _ => True
  | dynamic_storage _ => variable_data_impl_dynamic_ v <> None
  | external_storage a => a + n <= size_t_modulus
  end ->
  load (fst (fill v m first n x)) (snd (fill v m first n x))
    (pointer_add first k)
  = Some x.
Proof.
  intros Hk Hlive.
  destruct first as [|i|i|a]; simpl.
  - contradiction.
  - rewrite fill_buffer_inside by exact Hk. reflexivity.
  - destruct (variable_data_impl_dynamic_ v) as [b|]; [|contradiction].
    simpl. rewrite fill_buffer_inside by exact Hk. reflexivity.
  - rewrite size_t_small by lia.
    rewrite fill_buffer_inside by exact Hk. reflexivity.
Qed.

(** What a resize leaves behind. *)
Lemma initialize_resized (v v' : Variables) (m m' : memory) (n : N) :
  is_owning v = true ->
  number_of_grid_points v <> n ->
  initialize v m n = Returns (v', m') ->
  m' = m
  /\ is_owning v' = true
  /\ number_of_grid_points v' = n
  /\ size v' = size_t (n * components)
  /\ (size v' <> 0 ->
      variable_data_ v'
      = cv_reset (if n =? 1 then static_storage 0 else dynamic_storage 0)
          (size v')
      /\ holds_heap_storage v' = negb (n =? 1)
      /\ ((spectre_debug || spectre_nan_init)%bool = true ->
          forall k : N,
            k < size v' ->
            load v' m' (pointer_add (data v') k) = Some signaling_NaN)).
Proof.
  unfold is_owning, number_of_grid_points, size, data.
  intros Hown Hne. unfold VariablesModel.initialize.
  set (v0 := if number_of_grid_points_ _ v =? 0 then _ else v).
  assert (H0 : owning_ _ v0 = true
               /\ number_of_grid_points_ _ v0 = number_of_grid_points_ _ v).
  { subst v0. destruct (_ =? 0) eqn:Hz; simpl; [|split; trivial].
    apply N.eqb_eq in Hz. split; congruence. }
  destruct H0 as [Hown0 Hg0].
  rewrite Hg0. apply N.eqb_neq in Hne. rewrite Hne.
  unfold is_owning at 1. rewrite Hown0. cbn [negb].
  cbn [size_ set_size set_number_of_grid_points number_of_grid_points_].
  set (sz := size_t (n * components)).
  destruct (0 <? sz) eqn:Hpos.
  2:{ intros H. injection H as <- <-. simpl.
      apply N.ltb_ge in Hpos.
      split; [reflexivity|]. split; [exact Hown0|].
      split; [reflexivity|]. split; [reflexivity|].
      intros Hsz. exfalso. apply Hsz. lia. }
  apply N.ltb_lt in Hpos.
  assert (Hall : forall w : Variables,
    owning_ _ w = true -> number_of_grid_points_ _ w = n ->
    size_ _ w = sz ->
    holds_heap_storage w = negb (n =? 1) ->
    bind (add_reference_variable_data w)
      (fun w1 =>
         if (spectre_debug || spectre_nan_init)%bool
         then Returns (fill w1 m (data w1) (size_ _ w1) signaling_NaN)
         else Returns (w1, m))
    = Returns (v', m') ->
    m' = m /\ owning_ _ v' = true /\ number_of_grid_points_ _ v' = n
    /\ size_ _ v' = sz
    /\ (size_ _ v' <> 0 ->
        variable_data_ v'
        = cv_reset (if n =? 1 then static_storage 0 else dynamic_storage 0)
            (size_ _ v')
        /\ holds_heap_storage v' = negb (n =? 1)
        /\ ((spectre_debug || spectre_nan_init)%bool = true ->
            forall k : N,
              k < size_ _ v' ->
              load v' m' (pointer_add (cv_data (variable_data_ v')) k)
              = Some signaling_NaN))).
  { intros w Hwo Hwg Hws Hwh.
    destruct (add_reference_variable_data w) as [w1|] eqn:Hadd;
      cbn [bind]; [|discriminate].
    pose proof (add_reference_variable_data_view _ _ Hadd) as Hview.
    apply add_reference_variable_data_members in Hadd.
    destruct Hadd as (Hs & Hg & Ho & Hd & _).
    assert (Hnz : (size_ _ w =? 0) = false) by (apply N.eqb_neq; lia).
    unfold is_owning in Hview. rewrite Hnz, Hwo, Hwg in Hview.
    assert (Hheap1 : holds_heap_storage w1 = negb (n =? 1)).
    { unfold holds_heap_storage in *. rewrite Hd. exact Hwh. }
    assert (Hview1 : variable_data_ w1
                     = cv_reset (if n =? 1 then static_storage 0
                                 else dynamic_storage 0) (size_ _ w1)).
    { rewrite Hview, Hs. destruct (n =? 1); [reflexivity|].
      unfold dynamic_get. unfold holds_heap_storage in Hwh.
      destruct (variable_data_impl_dynamic_ w); [reflexivity|discriminate]. }
    unfold data.
    destruct (spectre_debug || spectre_nan_init)%bool.
    - intros H. injection H as H.
      rewrite Hview1 in H. cbn [cv_data cv_reset] in H.
      unfold VariablesModel.fill in H.
      destruct (n =? 1).
      + injection H as <- <-.
        cbn [owning_ number_of_grid_points_ size_ variable_data_ set_static].
        rewrite Hview1. unfold holds_heap_storage in *.
        cbn [variable_data_impl_dynamic_ set_static cv_data cv_reset].
        repeat split; try congruence.
        intros _ k Hk. cbn [pointer_add VariablesModel.load
                             variable_data_impl_static_ set_static].
        rewrite fill_buffer_inside by exact Hk. reflexivity.
      + destruct (variable_data_impl_dynamic_ w1) as [b|] eqn:Hdyn.
        2:{ unfold holds_heap_storage in Hheap1. rewrite Hdyn in Hheap1.
            discriminate. }
        injection H as <- <-.
        cbn [owning_ number_of_grid_points_ size_ variable_data_
             set_dynamic].
        rewrite Hview1. unfold holds_heap_storage.
        cbn [variable_data_impl_dynamic_ set_dynamic cv_data cv_reset].
        repeat split; try congruence.
        intros _ k Hk. cbn [pointer_add VariablesModel.load
                             variable_data_impl_dynamic_ set_dynamic].
        rewrite fill_buffer_inside by exact Hk. reflexivity.
    - intros H. injection H as <- <-.
      repeat split; try congruence. }
  destruct (n =? 1) eqn:Hn1; cbn [bind].
  - apply Hall; try reflexivity; try assumption.
  - unfold VariablesModel.make_unique_for_overwrite.
    destruct (can_allocate sz); cbn [bind]; [|discriminate].
    apply Hall; try reflexivity; try assumption.
Qed.

Lemma map_seq_constant {A : Type} (f : nat -> A) (a : A) (len : nat) :
  (forall i : nat, (i < len)%nat -> f i = a) ->
  map f (seq 0 len) = repeat a len.
Proof.
  intros Hf.
  rewrite (map_ext_in f (fun _ => a))
    by (intros i Hi; apply in_seq in Hi; apply Hf; lia).
  rewrite map_const, length_seq. reflexivity.
Qed.

(** A view that is asked for another number of grid points stops the
    program. *)
Lemma initialize_of_view_aborts (v : Variables) (m : memory) (n : N) :
  is_owning v = false ->
  number_of_grid_points v <> n ->
  exists f : failure, initialize v m n = Aborts f.
Proof.
  unfold number_of_grid_points, is_owning. intros Ho Hn.
  unfold VariablesModel.initialize.
  destruct (number_of_grid_points_ _ v =? 0) eqn:Hz.
  - apply N.eqb_eq in Hz.
    cbn [number_of_grid_points_ set_number_of_grid_points].
    replace (0 =? n) with false by (symmetry; apply N.eqb_neq; congruence).
    unfold is_owning. simpl. rewrite Ho. eexists. reflexivity.
  - replace (number_of_grid_points_ _ v =? n) with false
      by (symmetry; apply N.eqb_neq; exact Hn).
    unfold is_owning. rewrite Ho. eexists. reflexivity.
Qed.

(** [initialize] keeps the view on live storage. *)
Lemma initialize_storage_invariant (v v' : Variables) (m m' : memory)
  (n : N) :
  storage_invariant v ->
  initialize v m n = Returns (v', m') ->
  storage_invariant v'.
Proof.
  intros Hst Hret.
  destruct (N.eq_dec (number_of_grid_points v) n) as [He|Hne].
  - unfold VariablesModel.initialize in Hret.
    unfold number_of_grid_points in He.
    destruct (number_of_grid_points_ _ v =? 0) eqn:Hz.
    + apply N.eqb_eq in Hz.
      cbn [number_of_grid_points_ set_number_of_grid_points] in Hret.
      replace (0 =? n) with true in Hret
        by (symmetry; apply N.eqb_eq; congruence).
      injection Hret as <- _. intros Hs. simpl in Hs. congruence.
    + rewrite He, N.eqb_refl in Hret. injection Hret as <- _. exact Hst.
  - destruct (is_owning v) eqn:Hown.
    + destruct (initialize_resized _ _ _ _ _ Hown Hne Hret)
        as (_ & Ho & Hg & Hs & Hrest).
      intros Hnz. destruct (Hrest Hnz) as (Hview & Hheap & _).
      unfold is_owning, number_of_grid_points, size, data in *.
      rewrite Hview, Ho, Hg. cbn [cv_size cv_data cv_reset].
      split; [reflexivity|].
      destruct (n =? 1); [reflexivity|]. split; [reflexivity|exact Hheap].
    + destruct (initialize_of_view_aborts v m n Hown Hne) as [f Hf].
      rewrite Hf in Hret. discriminate.
Qed.

(** X2.  An object constructed with [n] grid points holds a heap
    allocation exactly when [contains_allocations] says so, that is when
    [n > 1]: with one grid point the data are in the array inside the object,
    with more they are in the allocation.  Foreign memory is not written. *)
Theorem constructed_storage_matches_contains_allocations
  (storage : buffer) (m m' : memory) (n : N) (v : Variables) :
  (n <> 0 -> size_t (n * components) <> 0) ->
  Variables_sized storage m n = Returns (v, m') ->
  m' = m
  /\ number_of_grid_points v = n
  /\ is_owning v = true
  /\ contains_allocations v = holds_heap_storage v
  /\ (n = 1 -> data v = static_storage 0)
  /\ (1 < n -> data v = dynamic_storage 0).
Proof.
  intros Hsize Hret. unfold VariablesModel.Variables_sized in Hret.
  destruct (N.eq_dec n 0) as [Hz|Hz].
  - subst n. unfold VariablesModel.initialize in Hret. simpl in Hret.
    injection Hret as <- <-.
    repeat split; try reflexivity; intros H; discriminate H || lia.
  - assert (Hne : number_of_grid_points (default_members storage) <> n).
    { simpl. intros H. apply Hz. symmetry. exact H. }
    destruct (initialize_resized (default_members storage) _ _ _ _
                eq_refl Hne Hret)
      as (Hm & Ho & Hg & Hs & Hrest).
    assert (Hnz : size v <> 0) by (rewrite Hs; apply Hsize, Hz).
    destruct (Hrest Hnz) as (Hview & Hheap & _).
    unfold contains_allocations, data. rewrite Hg, Hheap, Hview.
    cbn [cv_data cv_reset].
    split; [exact Hm|]. split; [reflexivity|]. split; [exact Ho|].
    split; [|split].
    + destruct (n =? 1) eqn:H1.
      * apply N.eqb_eq in H1. rewrite H1. reflexivity.
      * apply N.eqb_neq in H1. apply N.ltb_lt. lia.
    + intros ->. reflexivity.
    + intros Hgt. replace (n =? 1) with false
        by (symmetry; apply N.eqb_neq; lia).
      reflexivity.
Qed.

(** X3.  In a Debug build, or with [SPECTRE_NAN_INIT], a resize by
    [initialize] leaves every element of the object a signaling NaN. *)
Theorem initialize_fills_with_signaling_NaN
  (v v' : Variables) (m m' : memory) (n : N) :
  (spectre_debug || spectre_nan_init)%bool = true ->
  is_owning v = true ->
  number_of_grid_points v <> n ->
  initialize v m n = Returns (v', m') ->
  size v' = size_t (n * components)
  /\ data_values v' m' = repeat (Some signaling_NaN) (N.to_nat (size v')).
Proof.
  intros Hflag Hown Hne Hret.
  destruct (initialize_resized _ _ _ _ _ Hown Hne Hret)
    as (_ & _ & _ & Hs & Hrest).
  split; [exact Hs|].
  unfold VariablesModel.data_values. apply map_seq_constant.
  intros i Hi.
  assert (Hnz : size v' <> 0) by (unfold size in *; lia).
  destruct (Hrest Hnz) as (_ & _ & Hnan).
  apply (Hnan Hflag). unfold size in *. lia.
Qed.

(** X4.  When [initialize(n, value)] returns, every element of the object
    is [value], also when the object is a view of [n] grid points, whose
    elements are foreign memory; the rest of foreign memory is as before,
    and an owning object writes to none of it. *)
Theorem initialize_with_value_sets_every_element
  (v v' : Variables) (m m' : memory) (n : N) (value : value_type) :
  storage_invariant v ->
  initialize_with_value v m n value = Returns (v', m') ->
  number_of_grid_points v' = n
  /\ data_values v' m' = repeat (Some value) (N.to_nat (size v'))
  /\ (is_owning v = true -> forall x : N, m' x = m x)
  /\ (forall a x : N,
        data v' = external_storage a ->
        x < a \/ a + size v' <= x ->
        m' x = m x).
Proof.
  intros Hst. unfold VariablesModel.initialize_with_value.
  destruct (initialize v m n) as [[v1 m1]|f] eqn:Hinit; cbn [bind];
    [|discriminate].
  cbn [fst snd]. intros Hret. injection Hret as Hfill.
  pose proof (initialize_storage_invariant _ _ _ _ _ Hst Hinit) as Hst1.
  assert (Hm1 : m1 = m /\ number_of_grid_points v1 = n
                /\ is_owning v1 = is_owning v).
  { destruct (N.eq_dec (number_of_grid_points v) n) as [He|Hne].
    - unfold VariablesModel.initialize in Hinit.
      unfold number_of_grid_points in *.
      destruct (number_of_grid_points_ _ v =? 0) eqn:Hz.
      + apply N.eqb_eq in Hz.
        cbn [number_of_grid_points_ set_number_of_grid_points] in Hinit.
        replace (0 =? n) with true in Hinit
          by (symmetry; apply N.eqb_eq; congruence).
        injection Hinit as <- <-. simpl. repeat split; congruence.
      + rewrite He, N.eqb_refl in Hinit. injection Hinit as <- <-.
        repeat split; assumption.
    - destruct (is_owning v) eqn:Hown.
      + destruct (initialize_resized _ _ _ _ _ Hown Hne Hinit)
          as (Hm & Ho & Hg & _).
        repeat split; assumption.
      + destruct (initialize_of_view_aborts v m n Hown Hne) as [f Hf].
        rewrite Hf in Hinit. discriminate. }
  destruct Hm1 as (-> & Hg1 & Ho1).
  pose proof (fill_members _ v1 m (data v1) (size_ _ v1) value)
    as (Hfs & Hfg & Hfo & Hfv).
  rewrite Hfill in Hfs, Hfg, Hfo, Hfv. cbn [fst] in Hfs, Hfg, Hfo, Hfv.
  unfold number_of_grid_points, size, data, is_owning in *.
  split; [congruence|]. split; [|split].
  - unfold VariablesModel.data_values, size, data.
    apply map_seq_constant. intros i Hi.
    rewrite Hfv, Hfs in *.
    assert (Hnz : size_ _ v1 <> 0) by lia.
    destruct (Hst1 Hnz) as (_ & Hlive).
    pose proof (load_filled v1 m (cv_data (variable_data_ v1))
                  (size_ _ v1) (N.of_nat i) value) as Hload.
    unfold data in Hfill. rewrite Hfill in Hload. cbn [fst snd] in Hload.
    apply Hload; [lia|].
    unfold is_owning, data in Hlive.
    destruct (owning_ _ v1).
    + destruct (number_of_grid_points_ _ v1 =? 1).
      * rewrite Hlive. exact I.
      * destruct Hlive as [-> Hheap]. unfold holds_heap_storage in Hheap.
        destruct (variable_data_impl_dynamic_ v1); discriminate.
    + destruct Hlive as (a & -> & Ha). exact Ha.
  - intros Hown x. rewrite Hown in Ho1.
    destruct (N.eq_dec (size_ _ v1) 0) as [Hz|Hnz].
    + unfold VariablesModel.fill in Hfill. rewrite Hz in Hfill.
      destruct (cv_data (variable_data_ v1)) as [|i|i|a];
        [| |destruct (variable_data_impl_dynamic_ v1)|];
        injection Hfill as _ <-; try reflexivity.
      unfold fill_buffer.
      destruct ((a <=? x) && (x <? a + 0)) eqn:Hin; [|reflexivity].
      apply andb_prop in Hin. destruct Hin as [H1 H2].
      apply N.leb_le in H1. apply N.ltb_lt in H2. lia.
    + destruct (Hst1 Hnz) as (_ & Hlive).
      unfold is_owning in Hlive. rewrite Ho1 in Hlive.
      unfold VariablesModel.fill in Hfill. unfold data in Hlive.
      destruct (number_of_grid_points_ _ v1 =? 1).
      * rewrite Hlive in Hfill. injection Hfill as _ <-. reflexivity.
      * destruct Hlive as [Hd Hheap]. rewrite Hd in Hfill.
        destruct (variable_data_impl_dynamic_ v1);
          injection Hfill as _ <-; reflexivity.
  - intros a x Hdata Hx. rewrite Hfv in Hdata.
    unfold VariablesModel.fill in Hfill. rewrite Hdata in Hfill.
    injection Hfill as _ <-. unfold fill_buffer.
    rewrite Hfs in Hx.
    destruct ((a <=? x) && (x <? a + size_ _ v1)) eqn:Hin; [|reflexivity].
    apply andb_prop in Hin. destruct Hin as [H1 H2].
    apply N.leb_le in H1. apply N.ltb_lt in H2. lia.
Qed.

(** *** Moving an object, and [swap] *)

(** The state in which a move leaves the [blaze::CustomVector] it took the
    pointer from.  The class is not among the sources; nothing below
    depends on what it is. *)
Variable moved_from_view : custom_vector -> custom_vector.

(** A pointer of one object as another object holds it after a move: the
    allocation goes along with the [unique_ptr], the array inside the
    source stays where the source is, at [static_address]. *)
Definition moved_pointer (static_address : N) (p : pointer) : pointer :=
  match p with
  | static_storage i => external_storage (size_t (static_address + i))
  | _ => p
  end.

(** Where an object keeps its elements: the address of the array inside
    it, and the address and the length of the allocation that its
    [unique_ptr] holds, when it holds one. *)
Record placement : Type := mk_placement {
  array_address : N;
  allocation_address : N;
  allocation_length : N
}.

(** [first <= a < first + length] *)
Definition within (first length a : N) : bool :=
  (first <=? a) && (a <? first + length).

(** The view pointer of [rhs] as the target of a move assignment holds it
    when the assignment is over.  The source may be a view of the target: a
    pointer into the array inside the target is a pointer into its own
    array then, which the assignment overwrites for one grid point; a
    pointer into the allocation that the target held leads nowhere, since
    the assignment of the [unique_ptr] has released it: [None]. *)
Definition assigned_pointer (this : Variables) (this_at : placement)
  (rhs_static_address : N) (p : pointer) : option pointer :=
  match p with
  | external_storage a =>
      if within (array_address this_at) components a
      then Some (static_storage (a - array_address this_at))
      else if holds_heap_storage this
              && within (allocation_address this_at)
                   (allocation_length this_at) a
      then None
      else Some p
  | _ => Some (moved_pointer rhs_static_address p)
  end.

(** The member initializers of the move constructor and the assignments of
    the move assignment: [this] takes the allocation, the flags and the view
    of [rhs], whose pointer is [view_data] to [this], and the array of [rhs]
    when there is one grid point. *)
Definition take_members (this rhs : Variables) (view_data : pointer)
  : Variables :=
  let this :=
    mk_Variables value_type (variable_data_impl_static_ _ this)
      (variable_data_impl_dynamic_ rhs) (owning_ _ rhs) (size rhs)
      (number_of_grid_points rhs)
      (mk_custom_vector view_data (cv_size (variable_data_ rhs)))
      (reference_variable_data_ _ this) in
  if number_of_grid_points_ _ this =? 1
  then set_static _ (variable_data_impl_static_ _ rhs) this
  else this.

(** What the moves leave of [rhs]: [variable_data_impl_dynamic_.reset()],
    [owning_ = true], [size_ = 0], [number_of_grid_points_ = 0]. *)
Definition moved_from (rhs : Variables) : Variables :=
  set_number_of_grid_points _ 0
    (set_size _ 0
       (set_owning _ true
          (set_dynamic _ None
             (set_variable_data _ (moved_from_view (variable_data_ rhs))
                rhs)))).

(** [Variables::Variables(Variables&& rhs)], also from wrapped tags: the
    new object and what is left of [rhs].  Nothing points into an object
    that is only now constructed. *)
Definition move_construct (storage : buffer) (rhs : Variables)
  (rhs_static_address : N) : outcome (Variables * Variables) :=
  this <- add_reference_variable_data
            (take_members (default_members storage) rhs
               (moved_pointer rhs_static_address
                  (cv_data (variable_data_ rhs)))) ;;
  Returns (this, moved_from rhs).

(** [Variables::operator=(Variables&& rhs)]; [same_object] is
    [this == &rhs], which the operator for wrapped tags does not ask, and
    [this_at] is where the target keeps its elements.  The target is [None]
    where it is left with a pointer into the allocation that it released: an
    owning target with elements does not keep the pointer, since
    [add_reference_variable_data] points it at its own storage. *)
Definition move_assign (this rhs : Variables) (same_object : bool)
  (this_at : placement) (rhs_static_address : N)
  : outcome (option Variables * Variables) :=
  if same_object then Returns (Some this, rhs)
  else
    let view_data :=
      assigned_pointer this this_at rhs_static_address
        (cv_data (variable_data_ rhs)) in
    this <- add_reference_variable_data
              (take_members this rhs
                 (match view_data with Some p => p | None => nullptr end)) ;;
    Returns
      (match view_data with
       | Some _ => Some this
       | None =>
           if is_owning this && negb (size this =? 0) then Some this
           else None
       end,
       moved_from rhs).

(** [swap(Variables<TagsLhs>& lhs, Variables<TagsRhs>& rhs)]:
    [Variables<TagsLhs> temp{std::move(lhs)}; lhs = std::move(rhs);
    rhs = std::move(temp);].  The targets of the two assignments were moved
    from and hold no allocation. *)
Definition swap (lhs rhs : Variables) (temp_storage : buffer)
  (lhs_static_address rhs_static_address temp_static_address : N)
  : outcome (option Variables * option Variables) :=
  r1 <- move_construct temp_storage lhs lhs_static_address ;;
  r2 <- move_assign (snd r1) rhs false
          (mk_placement lhs_static_address 0 0) rhs_static_address ;;
  r3 <- move_assign (snd r2) (fst r1) false
          (mk_placement rhs_static_address 0 0) temp_static_address ;;
  Returns (fst r2, fst r3).

(** The elements [a], ..., [a + n - 1] lie before the [length] elements
    from [first] on, or behind them. *)
Definition apart (first length a n : N) : Prop :=
  (a < first /\ a + n <= first) \/ first + length <= a.

(** The source of a move assignment is no view of its target: where its
    view leads to foreign memory, the elements are apart from the array
    inside the target and from the allocation that the target holds. *)
Definition apart_from (this : Variables) (this_at : placement)
  (rhs : Variables) : Prop :=
  forall a : N,
    data rhs = external_storage a ->
    apart (array_address this_at) components a (size rhs)
    /\ (holds_heap_storage this = true ->
        apart (allocation_address this_at) (allocation_length this_at) a
          (size rhs)).

(** [set_data_ref] over foreign memory gives a view on live storage. *)
Lemma set_data_ref_storage_invariant (v v' : Variables) (a sz : N) :
  a + sz <= size_t_modulus ->
  set_data_ref v (external_storage a) sz = Returns v' ->
  storage_invariant v'.
Proof.
  intros Ha Hret.
  unfold VariablesModel.set_data_ref in Hret. cbn [is_null] in Hret.
  destruct (VariablesModel.ASSERT _ _ _ _) as [[]|f]; cbn [bind] in Hret;
    [|discriminate].
  pose proof (add_reference_variable_data_view _ _ Hret) as Hview.
  apply add_reference_variable_data_members in Hret.
  destruct Hret as (Hs & _ & Hown & _).
  cbn [owning_ set_owning] in Hown. fold (is_owning v') in Hown.
  cbn [size_ set_owning set_number_of_grid_points set_variable_data
       set_size set_dynamic variable_data_ is_owning owning_] in Hs, Hview.
  unfold is_owning in Hview. cbn [owning_ set_owning] in Hview.
  intros Hnz. rewrite Hs in *. apply N.eqb_neq in Hnz.
  rewrite Hnz in Hview. unfold data. rewrite Hview, Hown.
  cbn [cv_size cv_data cv_reset]. split; [reflexivity|].
  exists a. split; [reflexivity|exact Ha].
Qed.

(** The moved-from state. *)
Lemma moved_from_members (rhs : Variables) :
  is_owning (moved_from rhs) = true
  /\ size (moved_from rhs) = 0
  /\ number_of_grid_points (moved_from rhs) = 0
  /\ holds_heap_storage (moved_from rhs) = false
  /\ class_invariant (moved_from rhs)
  /\ storage_invariant (moved_from rhs).
Proof.
  repeat (split; [reflexivity|]).
  intros H. contradiction H. reflexivity.
Qed.

(** An owning object can be given any number of grid points: [initialize]
    stops only when the allocation fails. *)
Lemma initialize_of_owner (v : Variables) (m : memory) (n : N)
  (f : failure) :
  is_owning v = true ->
  initialize v m n = Aborts f ->
  f = bad_alloc /\ n <> 1
  /\ can_allocate (size_t (n * components)) = false.
Proof.
  unfold is_owning. intros Hown.
  unfold VariablesModel.initialize.
  set (v0 := if number_of_grid_points_ _ v =? 0 then _ else v).
  assert (Hown0 : owning_ _ v0 = true).
  { subst v0. destruct (_ =? 0); simpl; exact Hown. }
  clearbody v0.
  destruct (number_of_grid_points_ _ v0 =? n); [discriminate|].
  unfold is_owning. rewrite Hown0. cbn [negb].
  cbn [size_ set_size set_number_of_grid_points number_of_grid_points_].
  destruct (0 <? size_t (n * components)) eqn:Hpos; [|discriminate].
  assert (Hadd : forall w : Variables,
    owning_ _ w = true -> number_of_grid_points_ _ w = n ->
    size_ _ w = size_t (n * components) ->
    exists w', add_reference_variable_data w = Returns w').
  { intros w Hwo Hwg Hws.
    unfold VariablesModel.add_reference_variable_data.
    destruct (size_ _ w =? 0); [eexists; reflexivity|].
    unfold is_owning. rewrite Hwo.
    assert (Hcond : forall p,
      (cv_size (variable_data_ (set_variable_data _
                                  (cv_reset p (size_ _ w)) w))
       =? size_ _ (set_variable_data _ (cv_reset p (size_ _ w)) w))
      && (size_ _ (set_variable_data _ (cv_reset p (size_ _ w)) w)
          =? size_t (number_of_grid_points_ _
                       (set_variable_data _ (cv_reset p (size_ _ w)) w)
                     * components)) = true).
    { intros p. cbn [cv_size cv_reset variable_data_ set_variable_data
                      size_ number_of_grid_points_].
      rewrite Hwg, Hws, !N.eqb_refl. reflexivity. }
    destruct (number_of_grid_points_ _ w =? 1);
      rewrite Hcond, ASSERT_true; cbn [bind]; eexists; reflexivity. }
  destruct (n =? 1) eqn:Hn1; cbn [bind].
  - match goal with
    | |- context [add_reference_variable_data ?w] =>
        destruct (Hadd w) as [w' Hw']; try reflexivity; [exact Hown0|];
        rewrite Hw'
    end.
    cbn [bind].
    destruct (spectre_debug || spectre_nan_init)%bool; discriminate.
  - unfold VariablesModel.make_unique_for_overwrite.
    destruct (can_allocate _) eqn:Hcan; cbn [bind].
    + match goal with
      | |- context [add_reference_variable_data ?w] =>
          destruct (Hadd w) as [w' Hw']; try reflexivity; [exact Hown0|];
          rewrite Hw'
      end.
      cbn [bind].
      destruct (spectre_debug || spectre_nan_init)%bool; discriminate.
    + intros H. injection H as <-. apply N.eqb_neq in Hn1.
      repeat split; assumption.
Qed.

(** X5.  What a move leaves of its source owns its data and has no grid
    points, no elements and no allocation, whatever the source was, a view
    included; so [initialize] gives it any number of grid points, and stops
    only when an allocation fails.  This holds for the move constructor and
    for the move assignment from another object. *)
Theorem moved_from_object_is_an_empty_owner
  (storage : buffer) (this rhs this' rhs' : Variables)
  (target : option Variables) (this_at : placement)
  (rhs_static_address : N) :
  move_construct storage rhs rhs_static_address = Returns (this', rhs')
  \/ move_assign this rhs false this_at rhs_static_address
     = Returns (target, rhs') ->
  is_owning rhs' = true
  /\ number_of_grid_points rhs' = 0
  /\ size rhs' = 0
  /\ holds_heap_storage rhs' = false
  /\ (forall m : memory, data_values rhs' m = [])
  /\ (forall (m : memory) (n : N) (f : failure),
        initialize rhs' m n = Aborts f -> f = bad_alloc).
Proof.
  intros Hmove.
  assert (Hrhs : rhs' = moved_from rhs).
  { unfold move_construct, move_assign in Hmove.
    destruct Hmove as [H|H];
      destruct (add_reference_variable_data _); cbn [bind] in H;
      try discriminate; injection H as _ <-; reflexivity. }
  subst rhs'.
  destruct (moved_from_members rhs) as (Ho & Hs & Hg & Hh & _).
  repeat split; try assumption.
  intros m n f Hf. apply (initialize_of_owner _ m n f Ho Hf).
Qed.

(** Taking the members of a consistent object and setting the references
    gives an object of the same size with the same elements. *)
Lemma take_members_keeps (this rhs : Variables) (view_data : pointer) :
  class_invariant rhs ->
  storage_invariant rhs ->
  (size rhs <> 0 ->
   forall a : N,
     data rhs = external_storage a -> view_data = external_storage a) ->
  exists this' : Variables,
    add_reference_variable_data (take_members this rhs view_data)
    = Returns this'
    /\ number_of_grid_points this' = number_of_grid_points rhs
    /\ size this' = size rhs
    /\ is_owning this' = is_owning rhs
    /\ holds_heap_storage this' = holds_heap_storage rhs
    /\ (forall m : memory, data_values this' m = data_values rhs m)
    /\ class_invariant this'
    /\ storage_invariant this'
    /\ (size rhs <> 0 ->
        forall a : N,
          data this' = external_storage a -> data rhs = external_storage a).
Proof.
  intros Hcl Hst Hptr.
  set (t := take_members this rhs view_data).
  assert (Ht : size_ _ t = size_ _ rhs
               /\ number_of_grid_points_ _ t = number_of_grid_points_ _ rhs
               /\ owning_ _ t = owning_ _ rhs
               /\ variable_data_impl_dynamic_ t
                  = variable_data_impl_dynamic_ rhs
               /\ cv_size (variable_data_ t) = cv_size (variable_data_ rhs)
               /\ cv_data (variable_data_ t) = view_data
               /\ (number_of_grid_points_ _ rhs = 1 ->
                   variable_data_impl_static_ _ t
                   = variable_data_impl_static_ _ rhs)).
  { subst t. unfold take_members, size, number_of_grid_points.
    cbn [number_of_grid_points_].
    destruct (number_of_grid_points_ _ rhs =? 1) eqn:H1; simpl;
      repeat split; try reflexivity.
    intros H. apply N.eqb_neq in H1. contradiction. }
  destruct Ht as (Hts & Htg & Hto & Htd & Htvs & Htvd & Htst).
  destruct (add_reference_variable_data t) as [this'|f] eqn:Hadd.
  2:{ exfalso. unfold VariablesModel.add_reference_variable_data in Hadd.
      destruct (size_ _ t =? 0) eqn:Hz; [discriminate|].
      apply N.eqb_neq in Hz.
      assert (Hnz : size_ _ rhs <> 0) by congruence.
      destruct (Hst Hnz) as (Hvs & _).
      unfold is_owning in Hadd.
      assert (Hcond : forall w : Variables,
        size_ _ w = size_ _ t ->
        number_of_grid_points_ _ w = number_of_grid_points_ _ t ->
        cv_size (variable_data_ w) = size_ _ t ->
        (cv_size (variable_data_ w) =? size_ _ w)
        && (size_ _ w =? size_t (number_of_grid_points_ _ w * components))
        = true).
      { intros w Hws Hwg Hwv. rewrite Hwv, Hws, Hwg, Htg, Hts.
        rewrite <- Hcl, !N.eqb_refl. reflexivity. }
      destruct (owning_ _ t);
        [destruct (number_of_grid_points_ _ t =? 1)|];
        rewrite Hcond, ASSERT_true in Hadd; try discriminate;
        try reflexivity.
      congruence. }
  exists this'. split; [reflexivity|].
  pose proof (add_reference_variable_data_view _ _ Hadd) as Hview.
  apply add_reference_variable_data_members in Hadd.
  destruct Hadd as (Hs & Hg & Ho & Hd & Hstat).
  unfold number_of_grid_points, size, is_owning, holds_heap_storage.
  rewrite Hs, Hg, Ho, Hd, Hts, Htg, Hto, Htd.
  repeat (split; [reflexivity|]).
  assert (Hcl' : class_invariant this').
  { unfold VariablesModel.class_invariant. rewrite Hs, Hg, Hts, Htg.
    exact Hcl. }
  destruct (N.eq_dec (size_ _ rhs) 0) as [Hz|Hnz].
  - split; [|split; [exact Hcl'|split]].
    + intros m. unfold VariablesModel.data_values, size.
      rewrite Hs, Hts, Hz. reflexivity.
    + intros H. rewrite Hs, Hts in H. contradiction.
    + intros H. contradiction.
  - destruct (Hst Hnz) as (Hvs & Hlive).
    assert (Hnz' : (size_ _ t =? 0) = false)
      by (apply N.eqb_neq; congruence).
    rewrite Hnz' in Hview. unfold is_owning in Hview, Hlive.
    rewrite Hto, Htg, Hts in Hview.
    assert (Hst' : storage_invariant this').
    { intros _. unfold is_owning, data, holds_heap_storage.
      rewrite Hs, Hg, Ho, Hd, Hts, Htg, Hto, Htd, Hview.
      destruct (owning_ _ rhs).
      - destruct (number_of_grid_points_ _ rhs =? 1).
        + split; reflexivity.
        + destruct Hlive as [_ Hheap].
          unfold holds_heap_storage in Hheap. unfold dynamic_get.
          rewrite Htd.
          destruct (variable_data_impl_dynamic_ rhs); [|discriminate].
          repeat split.
      - destruct Hlive as (a & Ha & Hend). split; [congruence|].
        exists a. rewrite Htvd, (Hptr Hnz a Ha). split; trivial. }
    split; [|split; [exact Hcl'|split; [exact Hst'|]]].
    + intros m. unfold VariablesModel.data_values, size, data.
      rewrite Hs, Hts, Hview.
      apply map_ext. intros k. unfold data in Hlive.
      destruct (owning_ _ rhs).
      * destruct (number_of_grid_points_ _ rhs =? 1) eqn:H1.
        -- rewrite Hlive.
           cbn [cv_data cv_reset pointer_add VariablesModel.load].
           rewrite Hstat, Htst by (apply N.eqb_eq; exact H1). reflexivity.
        -- destruct Hlive as [Hdata Hheap]. rewrite Hdata.
           unfold dynamic_get. rewrite Htd.
           unfold holds_heap_storage in Hheap.
           destruct (variable_data_impl_dynamic_ rhs) eqn:Hdyn;
             [|discriminate].
           cbn [cv_data cv_reset pointer_add VariablesModel.load].
           rewrite Hd, Htd, Hdyn. reflexivity.
      * destruct Hlive as (a & Ha & _).
        rewrite Htvd, (Hptr Hnz a Ha), Ha. reflexivity.
    + intros _ a Hda. unfold data in Hda. rewrite Hview in Hda.
      destruct (owning_ _ rhs).
      * destruct (number_of_grid_points_ _ rhs =? 1);
          [discriminate Hda|].
        unfold dynamic_get in Hda.
        destruct (variable_data_impl_dynamic_ t); discriminate Hda.
      * destruct Hlive as (a0 & Ha0 & _).
        rewrite Htvd, (Hptr Hnz a0 Ha0) in Hda. rewrite Ha0. exact Hda.
Qed.

(** A pointer apart from a range is not within it. *)
Lemma apart_not_within (first length a n : N) :
  apart first length a n -> within first length a = false.
Proof.
  unfold apart, within. intros [[H _]|H].
  - apply andb_false_iff. left. apply N.leb_gt. exact H.
  - apply andb_false_iff. right. apply N.ltb_ge. exact H.
Qed.

(** The move assignment from a consistent source whose elements are not in
    the storage of the target. *)
Lemma move_assign_keeps (this rhs : Variables) (this_at : placement)
  (rhs_static_address : N) :
  class_invariant rhs ->
  storage_invariant rhs ->
  (forall a : N,
     data rhs = external_storage a ->
     (size rhs <> 0 ->
      apart (array_address this_at) components a (size rhs))
     /\ (holds_heap_storage this = true ->
         apart (allocation_address this_at) (allocation_length this_at) a
           (size rhs))) ->
  exists this' : Variables,
    move_assign this rhs false this_at rhs_static_address
    = Returns (Some this', moved_from rhs)
    /\ number_of_grid_points this' = number_of_grid_points rhs
    /\ size this' = size rhs
    /\ is_owning this' = is_owning rhs
    /\ holds_heap_storage this' = holds_heap_storage rhs
    /\ (forall m : memory, data_values this' m = data_values rhs m)
    /\ class_invariant this'
    /\ storage_invariant this'
    /\ (size rhs <> 0 ->
        forall a : N,
          data this' = external_storage a -> data rhs = external_storage a).
Proof.
  intros Hcl Hst Hapart. unfold move_assign.
  assert (Hsome : exists p : pointer,
    assigned_pointer this this_at rhs_static_address
      (cv_data (variable_data_ rhs)) = Some p
    /\ (size rhs <> 0 ->
        forall a : N,
          data rhs = external_storage a -> p = external_storage a)).
  { unfold data in *.
    destruct (cv_data (variable_data_ rhs)) as [|i|i|a] eqn:Hp;
      cbn [assigned_pointer moved_pointer];
      try (eexists; split; [reflexivity|]; intros _ a' Ha';
           discriminate Ha').
    destruct (Hapart a eq_refl) as [Harray Hheap].
    destruct (within (array_address this_at) components a) eqn:Hin.
    - eexists. split; [reflexivity|]. intros Hnz a' _.
      rewrite (apart_not_within _ _ _ _ (Harray Hnz)) in Hin.
      discriminate Hin.
    - destruct (holds_heap_storage this) eqn:Hh; cbn [andb].
      + rewrite (apart_not_within _ _ _ _ (Hheap eq_refl)).
        eexists. split; [reflexivity|]. intros _ a' Ha'. exact Ha'.
      + eexists. split; [reflexivity|]. intros _ a' Ha'. exact Ha'. }
  destruct Hsome as (p & -> & Hptr).
  destruct (take_members_keeps this rhs p Hcl Hst Hptr)
    as (this' & -> & Hrest).
  exists this'. split; [reflexivity|exact Hrest].
Qed.

(** What the target of a move has of its source: the grid points, the
    size, the ownership and the allocation, the same elements, and the
    consistency. *)
Definition takes_over (this' rhs : Variables) : Prop :=
  number_of_grid_points this' = number_of_grid_points rhs
  /\ size this' = size rhs
  /\ is_owning this' = is_owning rhs
  /\ holds_heap_storage this' = holds_heap_storage rhs
  /\ (forall m : memory, data_values this' m = data_values rhs m)
  /\ class_invariant this'
  /\ storage_invariant this'.

(** X6.  Moving a consistent object returns, and the target has the grid
    points, the size, the ownership and the allocation of the source, it
    reads the same elements, and it is consistent itself: for the move
    constructor always, and for the move assignment to another object when
    the source is no view of the target, that is when elements that the
    source does not own are apart from the array inside the target, which
    the assignment overwrites for one grid point, and from the allocation
    that the target holds, which the assignment releases. *)
Theorem move_keeps_size_and_elements
  (storage : buffer) (this rhs : Variables) (this_at : placement)
  (rhs_static_address : N) :
  class_invariant rhs ->
  storage_invariant rhs ->
  (exists this' : Variables,
     move_construct storage rhs rhs_static_address
     = Returns (this', moved_from rhs)
     /\ takes_over this' rhs)
  /\ (apart_from this this_at rhs ->
      exists this' : Variables,
        move_assign this rhs false this_at rhs_static_address
        = Returns (Some this', moved_from rhs)
        /\ takes_over this' rhs).
Proof.
  intros Hcl Hst. split.
  - unfold move_construct.
    destruct (take_members_keeps (default_members storage) rhs
                (moved_pointer rhs_static_address
                   (cv_data (variable_data_ rhs))) Hcl Hst)
      as (this' & -> & Hg & Hs & Ho & Hh & Hd & Hcl' & Hst' & _).
    + intros _ a Ha. unfold data in Ha. rewrite Ha. reflexivity.
    + exists this'. split; [reflexivity|].
      repeat (split; [assumption|]). assumption.
  - intros Hapart.
    destruct (move_assign_keeps this rhs this_at rhs_static_address Hcl Hst)
      as (this' & -> & Hg & Hs & Ho & Hh & Hd & Hcl' & Hst' & _).
    + intros a Ha. destruct (Hapart a Ha) as [Harray Hheap].
      split; [intros _; exact Harray|exact Hheap].
    + exists this'. split; [reflexivity|].
      repeat (split; [assumption|]). assumption.
Qed.


(** *** Multiplication and division by a vector, grid point by grid point *)

(** [value_type]'s [*] and [/]. *)
Variable times : value_type -> value_type -> value_type.
Variable divided_by : value_type -> value_type -> value_type.

(** [b[i] = x] *)
Definition update (b : buffer) (i : N) (x : value_type) : buffer :=
  fun j => if j =? i then x else b j.

(** [*p = x]; [None] where [p] leads to no live storage, which C++ leaves
    undefined. *)
Definition store (v : Variables) (m : memory) (p : pointer) (x : value_type)
  : option (Variables * memory) :=
  match p with
  | nullptr => None
  | static_storage i =>
      Some (set_static _ (update (variable_data_impl_static_ _ v) i x) v, m)
  | dynamic_storage i =>
      match variable_data_impl_dynamic_ v with
      | Some b => Some (set_dynamic _ (Some (update b i x)) v, m)
      | None => None
      end
  | external_storage a => Some (v, update m a x)
  end.

(** The body of the loops of [operator*=] and [operator/=]:
    [lhs_data[c * lhs.number_of_grid_points() + s] op= rhs_data[s]]. *)
Definition elementwise_step (op : value_type -> value_type -> value_type)
  (lhs_data rhs_data : pointer) (c s : nat)
  (state : option (Variables * memory)) : option (Variables * memory) :=
  match state with
  | None => None
  | Some (v, m) =>
      let target :=
        pointer_add lhs_data
          (size_t (size_t (N.of_nat c * number_of_grid_points v)
                   + N.of_nat s)) in
      match load v m target, load v m (pointer_add rhs_data (N.of_nat s)) with
      | Some a, Some b => store v m target (op a b)
      | _, _ => None
      end
  end.

Definition size_mismatch_in_multiplication : string :=
  "Size mismatch in multiplication: ".

(** The two operators but for [op]: the assertion on the sizes, then the
    loop over the components around the loop over the grid points.  [rhs]
    is a [DataVector], given by its [data()] and its [size()]. *)
Definition elementwise_assign (op : value_type -> value_type -> value_type)
  (lhs : Variables) (m : memory) (rhs : data_vector_ref)
  : outcome (option (Variables * memory)) :=
  ASSERT (number_of_grid_points lhs =? dv_size rhs)
    size_mismatch_in_multiplication
    [number_of_grid_points lhs; dv_size rhs] ;;;
  let lhs_data := data lhs in
  let rhs_data := dv_data rhs in
  Returns
    (fold_left
       (fun state c =>
          fold_left
            (fun state s =>
               elementwise_step op lhs_data rhs_data c s state)
            (seq 0 (N.to_nat (number_of_grid_points lhs))) state)
       (seq 0 (N.to_nat components)) (Some (lhs, m))).

(** [operator*=(Variables& lhs, const vector_type& rhs)] *)
Definition multiply_assign (lhs : Variables) (m : memory)
  (rhs : data_vector_ref) : outcome (option (Variables * memory)) :=
  elementwise_assign times lhs m rhs.

(** [operator/=(Variables& lhs, const vector_type& rhs)] *)
Definition divide_assign (lhs : Variables) (m : memory)
  (rhs : data_vector_ref) : outcome (option (Variables * memory)) :=
  elementwise_assign divided_by lhs m rhs.

(** Element [k] of the object. *)
Definition element (v : Variables) (m : memory) (k : N)
  : option value_type :=
  load v m (pointer_add (data v) k).

(** [data()] leads to storage that is there for all of [size()]
    elements. *)
Definition live_storage (v : Variables) : Prop :=
  match data v with
  | nullptr => False
  | static_storage i => i = 0
  | dynamic_storage i => i = 0 /\ holds_heap_storage v = true
  | external_storage a => a + size v <= size_t_modulus
  end.

Lemma storage_invariant_live (v : Variables) :
  storage_invariant v -> size v <> 0 -> live_storage v.
Proof.
  intros Hst Hnz. destruct (Hst Hnz) as (_ & Hlive).
  unfold live_storage.
  destruct (is_owning v).
  - destruct (number_of_grid_points_ _ v =? 1).
    + rewrite Hlive. reflexivity.
    + destruct Hlive as [-> Hheap]. split; [reflexivity|exact Hheap].
  - destruct Hlive as (a & -> & Ha). exact Ha.
Qed.

(** The members that a store leaves alone. *)
Definition same_bookkeeping (v' v : Variables) : Prop :=
  size v' = size v
  /\ number_of_grid_points v' = number_of_grid_points v
  /\ is_owning v' = is_owning v
  /\ variable_data_ v' = variable_data_ v
  /\ holds_heap_storage v' = holds_heap_storage v.

Lemma update_same (b : buffer) (i : N) (x : value_type) :
  update b i x i = x.
Proof.
  unfold update. rewrite N.eqb_refl. reflexivity.
Qed.

Lemma update_other (b : buffer) (i j : N) (x : value_type) :
  j <> i -> update b i x j = b j.
Proof.
  intros H. unfold update. apply N.eqb_neq in H. rewrite H. reflexivity.
Qed.

(** A store into element [k] of live storage succeeds, element [k] is the
    new value, the other elements and the foreign memory apart from the
    elements are as before. *)
Lemma store_element (v : Variables) (m : memory) (k : N) (x : value_type) :
  live_storage v ->
  k < size v ->
  exists (v' : Variables) (m' : memory),
    store v m (pointer_add (data v) k) x = Some (v', m')
    /\ same_bookkeeping v' v
    /\ live_storage v'
    /\ element v' m' k = Some x
    /\ (forall j : N, j < size v -> j <> k ->
          element v' m' j = element v m j)
    /\ (forall b : N,
          (forall a : N, data v = external_storage a ->
                         b < a \/ a + size v <= b) ->
          m' b = m b).
Proof.
  unfold live_storage, element, same_bookkeeping, size, data,
    number_of_grid_points, is_owning, holds_heap_storage.
  intros Hlive Hk.
  destruct (cv_data (variable_data_ v)) as [|i|i|a] eqn:Hdata.
  - contradiction.
  - subst i. eexists _, m. cbn [pointer_add store].
    split; [reflexivity|].
    cbn [size_ number_of_grid_points_ owning_ variable_data_ set_static
         variable_data_impl_dynamic_].
    rewrite Hdata. cbn [pointer_add VariablesModel.load
                         variable_data_impl_static_ set_static].
    split; [repeat split|]. split; [reflexivity|]. split; [|split].
    + rewrite update_same. reflexivity.
    + intros j _ Hj. rewrite update_other by lia. reflexivity.
    + reflexivity.
  - destruct Hlive as [-> Hheap].
    destruct (variable_data_impl_dynamic_ v) as [b|] eqn:Hdyn;
      [|discriminate].
    eexists _, m. cbn [pointer_add store]. rewrite Hdyn.
    split; [reflexivity|].
    cbn [size_ number_of_grid_points_ owning_ variable_data_ set_dynamic
         variable_data_impl_dynamic_].
    rewrite Hdata. cbn [pointer_add VariablesModel.load
                         variable_data_impl_dynamic_ set_dynamic].
    split; [repeat split|]. split; [split; reflexivity|]. split; [|split].
    + rewrite update_same. reflexivity.
    + intros j _ Hj. rewrite update_other by lia. rewrite Hdyn.
      reflexivity.
    + reflexivity.
  - eexists v, _. cbn [pointer_add store].
    split; [reflexivity|]. rewrite Hdata.
    split; [repeat split|]. split; [exact Hlive|].
    cbn [pointer_add VariablesModel.load].
    rewrite size_t_small by lia. split; [|split].
    + rewrite update_same. reflexivity.
    + intros j Hj Hjk. rewrite size_t_small by lia.
      rewrite update_other by lia. reflexivity.
    + intros b Hb. destruct (Hb a eq_refl) as [H|H];
        rewrite update_other by lia; reflexivity.
Qed.

Lemma live_element (v : Variables) (m : memory) (k : N) :
  live_storage v -> k < size v -> exists a, element v m k = Some a.
Proof.
  unfold live_storage, element, holds_heap_storage.
  intros Hlive Hk.
  destruct (data v) as [|i|i|a]; cbn [pointer_add VariablesModel.load].
  - contradiction.
  - eexists. reflexivity.
  - destruct Hlive as [_ Hheap].
    destruct (variable_data_impl_dynamic_ v); [|discriminate].
    eexists. reflexivity.
  - eexists. reflexivity.
Qed.

Section Elementwise.

Variable op : value_type -> value_type -> value_type.

(** Index [c * number_of_grid_points() + s] of the pair [(c, s)]. *)
Definition flat_index (g : N) (p : nat * nat) : N :=
  N.of_nat (fst p) * g + N.of_nat (snd p).

(** One pass of the loop body on live storage reads the element and the
    entry of the vector and stores the result. *)
Lemma elementwise_step_live (v : Variables) (m : memory) (b : N)
  (p : nat * nat) :
  live_storage v ->
  size v < size_t_modulus ->
  flat_index (number_of_grid_points v) p < size v ->
  N.of_nat (snd p) < number_of_grid_points v ->
  b + number_of_grid_points v <= size_t_modulus ->
  exists a : value_type,
    element v m (flat_index (number_of_grid_points v) p) = Some a
    /\ elementwise_step op (data v) (external_storage b) (fst p) (snd p)
         (Some (v, m))
       = store v m
           (pointer_add (data v) (flat_index (number_of_grid_points v) p))
           (op a (m (b + N.of_nat (snd p)))).
Proof.
  intros Hlive Hsz Hidx Hs Hb.
  destruct (live_element v m _ Hlive Hidx) as [a Ha].
  exists a. split; [exact Ha|].
  unfold elementwise_step, flat_index in *.
  assert (H1 : size_t (N.of_nat (fst p) * number_of_grid_points v)
               = N.of_nat (fst p) * number_of_grid_points v)
    by (apply size_t_small; lia).
  rewrite H1, size_t_small by lia.
  unfold element in Ha. rewrite Ha.
  cbn [pointer_add VariablesModel.load].
  rewrite size_t_small by lia. reflexivity.
Qed.

(** The loop body run over pairs with distinct indices multiplies exactly
    the elements at these indices. *)
Lemma steps_over_distinct_elements (b : N) (ps : list (nat * nat)) :
  forall (v : Variables) (m : memory),
    live_storage v ->
    size v < size_t_modulus ->
    (forall p, In p ps ->
       flat_index (number_of_grid_points v) p < size v
       /\ N.of_nat (snd p) < number_of_grid_points v) ->
    NoDup (map (flat_index (number_of_grid_points v)) ps) ->
    b + number_of_grid_points v <= size_t_modulus ->
    (forall a : N, data v = external_storage a ->
       b + number_of_grid_points v <= a \/ a + size v <= b) ->
    exists (v' : Variables) (m' : memory),
      fold_left
        (fun state p =>
           elementwise_step op (data v) (external_storage b) (fst p) (snd p)
             state)
        ps (Some (v, m))
      = Some (v', m')
      /\ same_bookkeeping v' v
      /\ (forall p, In p ps ->
            exists a : value_type,
              element v m (flat_index (number_of_grid_points v) p) = Some a
              /\ element v' m' (flat_index (number_of_grid_points v) p)
                 = Some (op a (m (b + N.of_nat (snd p)))))
      /\ (forall k : N,
            k < size v ->
            ~ In k (map (flat_index (number_of_grid_points v)) ps) ->
            element v' m' k = element v m k)
      /\ (forall x : N,
            (forall a : N, data v = external_storage a ->
               x < a \/ a + size v <= x) ->
            m' x = m x).
Proof using Type.
  clear spectre_nan_init signaling_NaN fresh_storage can_allocate
    moved_from_view times divided_by.
  induction ps as [|p ps IH]; intros v m Hlive Hsz Hin Hnd Hb Hsep.
  - exists v, m. cbn [fold_left]. split; [reflexivity|].
    split; [repeat split|]. split; [intros p []|].
    split; reflexivity.
  - cbn [fold_left].
    destruct (Hin p (or_introl eq_refl)) as [Hidx Hs].
    destruct (elementwise_step_live v m b p Hlive Hsz Hidx Hs Hb)
      as (a & Ha & ->).
    destruct (store_element v m _ (op a (m (b + N.of_nat (snd p))))
                Hlive Hidx)
      as (v1 & m1 & -> & Hbook & Hlive1 & Hnew & Hother & Hmem).
    destruct Hbook as (Hbs & Hbg & Hbo & Hbv & Hbh).
    assert (Hdata : data v1 = data v) by (unfold data; rewrite Hbv; trivial).
    cbn [map] in Hnd. apply NoDup_cons_iff in Hnd. destruct Hnd as [Hp Hnd].
    destruct (IH v1 m1) as (v' & m' & Hfold & Hbook' & Hps & Hrest & Hmem').
    + exact Hlive1.
    + rewrite Hbs. exact Hsz.
    + intros q Hq. rewrite Hbg, Hbs. apply Hin. right. exact Hq.
    + rewrite Hbg. exact Hnd.
    + rewrite Hbg. exact Hb.
    + intros a0 Ha0. rewrite Hbg, Hbs. apply Hsep. congruence.
    + rewrite Hdata in Hfold.
      rewrite Hbg in Hps, Hrest. rewrite Hbs in Hrest, Hmem'.
      exists v', m'. split; [exact Hfold|].
      destruct Hbook' as (Hbs' & Hbg' & Hbo' & Hbv' & Hbh').
      split; [repeat split; congruence|].
      assert (Hm1 : forall s : N, s < number_of_grid_points v ->
                      m1 (b + s) = m (b + s)).
      { intros s Hs'. apply Hmem. intros a0 Ha0.
        destruct (Hsep a0 Ha0); lia. }
      split; [|split].
      * intros q [<- | Hq].
        -- exists a. split; [exact Ha|].
           rewrite Hrest by assumption. exact Hnew.
        -- destruct (Hps q Hq) as (a1 & Ha1 & Hq').
           destruct (Hin q (or_intror Hq)) as [Hqi Hqs].
           assert (Hne : flat_index (number_of_grid_points v) q
                         <> flat_index (number_of_grid_points v) p).
           { intros He. apply Hp. rewrite <- He. apply in_map. exact Hq. }
           rewrite Hother in Ha1 by assumption.
           exists a1. split; [exact Ha1|].
           rewrite Hq', Hm1 by exact Hqs. reflexivity.
      * intros k Hk Hnot. cbn [map In] in Hnot.
        rewrite Hrest by tauto. apply Hother; [exact Hk|].
        intros He. apply Hnot. left. symmetry. exact He.
      * intros x Hx. rewrite Hmem'.
        -- apply Hmem. exact Hx.
        -- intros a0 Ha0. apply Hx. congruence.
Qed.

Lemma fold_left_nested {A B C : Type} (f : A -> B -> C -> A)
  (outer : list B) (inner : list C) (a : A) :
  fold_left (fun st c => fold_left (fun st s => f st c s) inner st) outer a
  = fold_left (fun st p => f st (fst p) (snd p))
      (flat_map (fun c => map (pair c) inner) outer) a.
Proof.
  revert a. induction outer as [|c outer IH]; intros a.
  - reflexivity.
  - cbn [fold_left flat_map]. rewrite fold_left_app, <- IH. f_equal.
    clear IH. revert a.
    induction inner as [|s inner IH]; intros a; [reflexivity|].
    cbn [map fold_left]. apply IH.
Qed.

(** Component after component, grid point after grid point, the loops
    visit the indices [0], [1], ... in order. *)
Lemma flat_indices_in_order (C G : nat) :
  map (flat_index (N.of_nat G))
    (flat_map (fun c => map (pair c) (seq 0 G)) (seq 0 C))
  = map N.of_nat (seq 0 (C * G)).
Proof.
  induction C as [|C IH].
  - reflexivity.
  - rewrite seq_S, flat_map_app, map_app, IH. cbn [flat_map].
    rewrite app_nil_r, map_map.
    replace (S C * G)%nat with (C * G + G)%nat by lia.
    rewrite seq_app, map_app. f_equal.
    rewrite (map_seq_shift _ (0 + C * G) G).
    apply map_ext. intros i. unfold flat_index. cbn [fst snd].
    lia.
Qed.

Lemma in_flat_pairs (C G : nat) (p : nat * nat) :
  In p (flat_map (fun c => map (pair c) (seq 0 G)) (seq 0 C))
  <-> (fst p < C)%nat /\ (snd p < G)%nat.
Proof.
  rewrite in_flat_map. split.
  - intros (c & Hc & Hp). apply in_map_iff in Hp.
    destruct Hp as (s & <- & Hs). apply in_seq in Hc, Hs. simpl. lia.
  - intros [Hc Hs]. exists (fst p). split; [apply in_seq; lia|].
    apply in_map_iff. exists (snd p).
    split; [destruct p; reflexivity|apply in_seq; lia].
Qed.

(** What the two operators do, for either [op]. *)
Lemma elementwise_assign_scales (v : Variables) (m : memory) (b : N) :
  class_invariant v ->
  storage_invariant v ->
  number_of_grid_points v * components < size_t_modulus ->
  b + number_of_grid_points v <= size_t_modulus ->
  (forall a : N, data v = external_storage a ->
     b + number_of_grid_points v <= a \/ a + size v <= b) ->
  exists (v' : Variables) (m' : memory),
    elementwise_assign op v m
      (mk_data_vector_ref (external_storage b) (number_of_grid_points v))
    = Returns (Some (v', m'))
    /\ same_bookkeeping v' v
    /\ (forall c s : N,
          c < components -> s < number_of_grid_points v ->
          exists a : value_type,
            element v m (c * number_of_grid_points v + s) = Some a
            /\ element v' m' (c * number_of_grid_points v + s)
               = Some (op a (m (b + s))))
    /\ (forall x : N,
          (forall a : N, data v = external_storage a ->
             x < a \/ a + size v <= x) ->
          m' x = m x).
Proof using Type.
  clear spectre_nan_init signaling_NaN fresh_storage can_allocate
    moved_from_view times divided_by.
  intros Hcl Hst Hwrap Hb Hsep.
  assert (Hsize : size v = number_of_grid_points v * components).
  { unfold size. rewrite Hcl. apply size_t_small. exact Hwrap. }
  unfold elementwise_assign. cbn [dv_size dv_data].
  rewrite N.eqb_refl, ASSERT_true. cbn [bind].
  rewrite fold_left_nested.
  set (G := N.to_nat (number_of_grid_points v)).
  set (C := N.to_nat components).
  remember (flat_map (fun c => map (pair c) (seq 0 G)) (seq 0 C)) as ps
    eqn:Eps.
  assert (HG : N.of_nat G = number_of_grid_points v)
    by (subst G; apply N2Nat.id).
  assert (HC : N.of_nat C = components) by (subst C; apply N2Nat.id).
  assert (Hidx : map (flat_index (number_of_grid_points v)) ps
                 = map N.of_nat (seq 0 (C * G))).
  { rewrite Eps, <- HG. apply flat_indices_in_order. }
  assert (Hbound : forall p, In p ps ->
            flat_index (number_of_grid_points v) p < size v
            /\ N.of_nat (snd p) < number_of_grid_points v).
  { intros p Hp. rewrite Eps in Hp. apply in_flat_pairs in Hp.
    destruct Hp as [Hc Hs].
    unfold flat_index. rewrite Hsize, <- HG, <- HC. split; nia. }
  assert (Hmember : forall c s : N,
            c < components -> s < number_of_grid_points v ->
            In (N.to_nat c, N.to_nat s) ps).
  { intros c s Hc Hs. rewrite Eps. apply in_flat_pairs.
    cbn [fst snd]. subst C G. lia. }
  clear Eps.
  destruct (N.eq_dec (size v) 0) as [Hz|Hnz].
  - assert (Hnil : ps = []).
    { destruct ps as [|p0 ps0]; [reflexivity|].
      destruct (Hbound p0 (or_introl eq_refl)) as [H _]. lia. }
    subst ps. exists v, m. split; [reflexivity|]. split; [repeat split|].
    split; [|reflexivity].
    intros c s Hc Hs. destruct (Hmember c s Hc Hs).
  - destruct (steps_over_distinct_elements b ps v m)
      as (v' & m' & Hfold & Hbook & Hdone & _ & Hmem).
    + apply storage_invariant_live; assumption.
    + rewrite Hsize. exact Hwrap.
    + exact Hbound.
    + rewrite Hidx. apply NoDup_map_NoDup_ForallPairs.
      * intros x y _ _. apply Nat2N.inj.
      * apply seq_NoDup.
    + exact Hb.
    + exact Hsep.
    + exists v', m'. split; [rewrite Hfold; reflexivity|].
      split; [exact Hbook|]. split; [|exact Hmem].
      intros c s Hc Hs.
      destruct (Hdone _ (Hmember c s Hc Hs)) as (a & Ha & Ha').
      unfold flat_index in Ha, Ha'. cbn [fst snd] in Ha, Ha'.
      rewrite !N2Nat.id in Ha, Ha'.
      exists a. split; assumption.
Qed.

End Elementwise.

(** X8.  [lhs *= rhs] and [lhs /= rhs] for a vector [rhs] of
    [number_of_grid_points()] entries that lies apart from the elements of
    [lhs] return on a consistent object, every element
    [c * number_of_grid_points() + s] becomes itself times, or divided by,
    entry [s] of the vector, the vector and the rest of foreign memory are
    as before, and so are the size, the grid points and the view of
    [lhs]. *)
Theorem multiply_and_divide_scale_every_component
  (v : Variables) (m : memory) (b : N) :
  class_invariant v ->
  storage_invariant v ->
  number_of_grid_points v * components < size_t_modulus ->
  b + number_of_grid_points v <= size_t_modulus ->
  (forall a : N, data v = external_storage a ->
     b + number_of_grid_points v <= a \/ a + size v <= b) ->
  forall (op : value_type -> value_type -> value_type)
         (assign : Variables -> memory -> data_vector_ref ->
                   outcome (option (Variables * memory))),
    (op = times /\ assign = multiply_assign)
    \/ (op = divided_by /\ assign = divide_assign) ->
    exists (v' : Variables) (m' : memory),
      assign v m
        (mk_data_vector_ref (external_storage b) (number_of_grid_points v))
      = Returns (Some (v', m'))
      /\ same_bookkeeping v' v
      /\ (forall c s : N,
            c < components -> s < number_of_grid_points v ->
            exists a : value_type,
              element v m (c * number_of_grid_points v + s) = Some a
              /\ element v' m' (c * number_of_grid_points v + s)
                 = Some (op a (m (b + s))))
      /\ (forall x : N,
            (forall a : N, data v = external_storage a ->
               x < a \/ a + size v <= x) ->
            m' x = m x).
Proof using Type.
  clear spectre_nan_init signaling_NaN fresh_storage can_allocate
    moved_from_view.
  intros Hcl Hst Hwrap Hb Hsep op assign [[-> ->] | [-> ->]];
    unfold multiply_assign, divide_assign;
    apply elementwise_assign_scales; assumption.
Qed.

(** *** Views of an object: [reference_subset] and
    [reference_with_different_prefixes] *)

(** A pointer into the storage of one object as another object holds it:
    the array of the first object is at [static_address], its allocation at
    [dynamic_address]. *)
Definition as_foreign (static_address dynamic_address : N) (p : pointer)
  : pointer :=
  match p with
  | nullptr => nullptr
  | static_storage i => external_storage (size_t (static_address + i))
  | dynamic_storage i => external_storage (size_t (dynamic_address + i))
  | external_storage a => external_storage (size_t a)
  end.

Definition ref_as_foreign (static_address dynamic_address : N)
  (r : data_vector_ref) : data_vector_ref :=
  mk_data_vector_ref (as_foreign static_address dynamic_address (dv_data r))
    (dv_size r).

(** The tags of a subset are consecutive tags of the list, which the
    function asserts statically: [count] tags after the first [first]. *)
Definition subset_sizes (first count : nat) : list N :=
  firstn count (skipn first tensor_sizes).

Definition preceding_sizes (first : nat) : list N :=
  firstn first tensor_sizes.

(** [Variables::reference_subset<SubsetOfTags>()]: nothing for no tags
    (the class without members), else a view that starts
    [number_of_grid_points() * number_of_preceeding_components] elements
    into the data. *)
Definition reference_subset (parent : Variables) (first count : nat)
  (storage : buffer) (static_address dynamic_address : N)
  : outcome (option Variables) :=
  match subset_sizes first count with
  | [] => Returns None
  | sizes =>
      child <- VariablesModel.Variables_view value_type sizes spectre_debug
                 storage
                 (as_foreign static_address dynamic_address
                    (pointer_add (data parent)
                       (size_t (number_of_grid_points parent
                                * number_of_independent_components
                                    (preceding_sizes first)))))
                 (size_t (number_of_grid_points parent
                          * number_of_independent_components sizes)) ;;
      Returns (Some child)
  end.

(** [Variables::reference_with_different_prefixes<WrappedVariables>()] *)
Definition reference_with_different_prefixes (parent : Variables)
  (storage : buffer) (static_address dynamic_address : N)
  : outcome Variables :=
  VariablesModel.Variables_view value_type tensor_sizes spectre_debug
    storage (as_foreign static_address dynamic_address (data parent))
    (size parent).

Lemma pointer_add_add (p : pointer) (a b : N) :
  pointer_add (pointer_add p a) b = pointer_add p (a + b).
Proof.
  destruct p as [|i|i|x]; cbn [pointer_add].
  - reflexivity.
  - f_equal. lia.
  - f_equal. lia.
  - f_equal. rewrite size_t_idemp_add. f_equal. lia.
Qed.

Lemma as_foreign_add (sa da : N) (p : pointer) (k : N) :
  as_foreign sa da (pointer_add p k) = pointer_add (as_foreign sa da p) k.
Proof.
  destruct p as [|i|i|x]; cbn [pointer_add as_foreign].
  - reflexivity.
  - f_equal. rewrite size_t_idemp_add. f_equal. lia.
  - f_equal. rewrite size_t_idemp_add. f_equal. lia.
  - f_equal. rewrite size_t_idemp_add. unfold size_t.
    apply N.Div0.mod_mod.
Qed.

Lemma fold_left_add (sizes : list N) (a : N) :
  fold_left N.add sizes a = a + N.of_nat (components_of sizes).
Proof.
  unfold components_of. revert a.
  induction sizes as [|s sizes IH]; intros a; cbn [fold_left map fold_right].
  - lia.
  - rewrite IH. lia.
Qed.

Lemma components_of_app (l1 l2 : list N) :
  components_of (l1 ++ l2) = (components_of l1 + components_of l2)%nat.
Proof.
  unfold components_of. induction l1 as [|s l1 IH]; simpl; [reflexivity|].
  rewrite IH. lia.
Qed.

Lemma components_of_firstn (n : nat) (l : list N) :
  (components_of (firstn n l) <= components_of l)%nat.
Proof.
  rewrite <- (firstn_skipn n l) at 2. rewrite components_of_app. lia.
Qed.

(** The tags before a subset and the subset are part of the list. *)
Lemma subset_within (first count : nat) :
  (components_of (preceding_sizes first)
   + components_of (subset_sizes first count)
   <= component_count)%nat.
Proof.
  unfold component_count, preceding_sizes, subset_sizes.
  rewrite <- (firstn_skipn first tensor_sizes) at 3.
  rewrite components_of_app.
  pose proof (components_of_firstn count (skipn first tensor_sizes)). lia.
Qed.

(** [set_data_ref], for tensors of any sizes, of a size that is a multiple
    of their number of components. *)
Lemma set_data_ref_of_multiple (sizes : list N) (v : Variables)
  (start : pointer) (g : N) :
  N.of_nat (components_of sizes) <> 0 ->
  N.of_nat (components_of sizes) < size_t_modulus ->
  g * N.of_nat (components_of sizes) < size_t_modulus ->
  exists v' : Variables,
    VariablesModel.set_data_ref value_type sizes spectre_debug v start
      (size_t (g * number_of_independent_components sizes))
    = Returns v'
    /\ is_owning v' = false
    /\ size v' = (if is_null start then 0
                  else g * N.of_nat (components_of sizes))
    /\ number_of_grid_points v' = (if is_null start then 0 else g)
    /\ data v' = start
    /\ (is_null start = false -> g <> 0 ->
        reference_variable_data_ _ v'
        = tensor_references
            (cv_reset start (g * N.of_nat (components_of sizes))) g 0
            sizes).
Proof.
  intros Hk Hkw Hwrap.
  set (k := N.of_nat (components_of sizes)) in *.
  assert (Hnic : number_of_independent_components sizes = k).
  { unfold number_of_independent_components. rewrite fold_left_add.
    apply size_t_small. exact Hkw. }
  rewrite Hnic, (size_t_small _ Hwrap).
  unfold VariablesModel.set_data_ref, is_owning, size,
    number_of_grid_points, data.
  destruct start as [|i|i|a]; cbn [is_null bind].
  1:{ eexists. split; [reflexivity|]. repeat split.
      intros H. discriminate H. }
  all: cbn [size_ set_size set_variable_data set_dynamic];
    rewrite Hnic, N.Div0.mod_mul, N.eqb_refl, ASSERT_true; cbn [bind];
    rewrite N.div_mul by exact Hk;
    unfold VariablesModel.add_reference_variable_data, is_owning;
    cbn [size_ owning_ number_of_grid_points_ variable_data_ set_owning
         set_number_of_grid_points set_size set_variable_data set_dynamic
         cv_size cv_reset];
    destruct (g * k =? 0) eqn:Hz;
    [ eexists; split; [reflexivity|]; cbn; repeat split;
      intros _ Hg; apply N.eqb_eq in Hz; exfalso; nia
    | rewrite Hnic, (size_t_small _ Hwrap), !N.eqb_refl; cbn [andb];
      rewrite ASSERT_true; cbn [bind];
      eexists; split; [reflexivity|]; cbn; repeat split ].
Qed.

(** The tensors of an object refer into its buffer, as
    [add_reference_variable_data] leaves them. *)
Definition references_set (v : Variables) : Prop :=
  reference_variable_data_ _ v
  = tensor_references (variable_data_ v) (number_of_grid_points v) 0
      tensor_sizes.

Lemma firstn_seq_within (n start len : nat) :
  (n <= len)%nat -> firstn n (seq start len) = seq start n.
Proof.
  revert start len. induction n as [|n IH]; intros start len Hn.
  - reflexivity.
  - destruct len as [|len]; [lia|]. cbn [seq firstn]. f_equal.
    apply IH. lia.
Qed.

Lemma storage_invariant_not_null (v : Variables) :
  storage_invariant v -> size v <> 0 -> is_null (data v) = false.
Proof.
  intros Hst Hnz. destruct (Hst Hnz) as (_ & Hlive).
  destruct (is_owning v).
  - destruct (number_of_grid_points_ _ v =? 1).
    + rewrite Hlive. reflexivity.
    + destruct Hlive as [-> _]. reflexivity.
  - destruct Hlive as (a & -> & _). reflexivity.
Qed.

Lemma is_null_as_foreign (sa da : N) (p : pointer) (k : N) :
  is_null (as_foreign sa da (pointer_add p k)) = is_null p.
Proof.
  destruct p; reflexivity.
Qed.

(** The references of a view of another object's storage are the
    references into that storage, seen from outside. *)
Lemma tensor_references_as_foreign (sa da : N) (p : pointer) (n1 n2 g x : N)
  (sizes : list N) :
  tensor_references (cv_reset (as_foreign sa da p) n1) g x sizes
  = map (map (ref_as_foreign sa da))
      (tensor_references (cv_reset p n2) g x sizes).
Proof.
  assert (Hc : forall k y,
    component_references (cv_reset (as_foreign sa da p) n1) g y k
    = map (ref_as_foreign sa da)
        (component_references (cv_reset p n2) g y k)).
  { induction k as [|k IH]; intros y; [reflexivity|].
    cbn [component_references map]. rewrite IH. f_equal.
    unfold ref_as_foreign, dv_set_data_ref, cv_element_address.
    cbn [dv_data dv_size cv_data cv_reset].
    rewrite as_foreign_add. reflexivity. }
  revert x. induction sizes as [|s sizes IH]; intros x; [reflexivity|].
  cbn [tensor_references map]. rewrite Hc, IH. reflexivity.
Qed.

(** X9.  [reference_subset] of a consistent object for tags with
    components returns a view: it does not own its data, it has the grid
    points of the object and as many elements as the tags of the subset
    need, and it starts where the first tensor of the subset starts.  Where
    the tensors of the object refer into its buffer, the tensors of the view
    are the tensors of the object for these tags: component by component
    the same pointer and length. *)
Theorem reference_subset_shares_the_tensors
  (parent : Variables) (first count : nat) (storage : buffer)
  (static_address dynamic_address : N) :
  class_invariant parent ->
  storage_invariant parent ->
  N.of_nat component_count < size_t_modulus ->
  number_of_grid_points parent * N.of_nat component_count
  < size_t_modulus ->
  components_of (subset_sizes first count) <> 0%nat ->
  exists child : Variables,
    reference_subset parent first count storage static_address
      dynamic_address
    = Returns (Some child)
    /\ is_owning child = false
    /\ number_of_grid_points child = number_of_grid_points parent
    /\ size child
       = number_of_grid_points parent
         * N.of_nat (components_of (subset_sizes first count))
    /\ data child
       = as_foreign static_address dynamic_address
           (pointer_add (data parent)
              (number_of_grid_points parent
               * N.of_nat (components_of (preceding_sizes first))))
    /\ (number_of_grid_points parent <> 0 ->
        references_set parent ->
        List.concat (reference_variable_data_ _ child)
        = map (ref_as_foreign static_address dynamic_address)
            (firstn (components_of (subset_sizes first count))
               (skipn (components_of (preceding_sizes first))
                  (List.concat (reference_variable_data_ _ parent))))).
Proof.
  intros Hcl Hst HT Hwrap HK.
  pose proof (subset_within first count) as Hwithin.
  unfold reference_subset.
  destruct (subset_sizes first count) as [|s0 sub] eqn:Hsub.
  { exfalso. apply HK. reflexivity. }
  rewrite <- Hsub in *. clear Hsub s0 sub.
  set (g := number_of_grid_points parent) in *.
  set (Kn := components_of (subset_sizes first count)) in *.
  set (Pn := components_of (preceding_sizes first)) in *.
  assert (Hsize : size parent = g * N.of_nat component_count).
  { unfold size, g, number_of_grid_points in *.
    rewrite Hcl. unfold number_of_independent_components.
    rewrite fold_left_add. cbn [N.add].
    fold component_count. rewrite (size_t_small _ HT).
    apply size_t_small. exact Hwrap. }
  assert (HPnic : number_of_independent_components (preceding_sizes first)
                  = N.of_nat Pn).
  { unfold number_of_independent_components. rewrite fold_left_add.
    apply size_t_small. cbn [N.add]. fold Pn. lia. }
  assert (HgP : g * N.of_nat Pn < size_t_modulus) by nia.
  assert (HgK : g * N.of_nat Kn < size_t_modulus) by nia.
  rewrite HPnic, (size_t_small _ HgP).
  unfold VariablesModel.Variables_view.
  destruct (set_data_ref_of_multiple (subset_sizes first count)
              (VariablesModel.default_members value_type
                 (subset_sizes first count) storage)
              (as_foreign static_address dynamic_address
                 (pointer_add (data parent) (g * N.of_nat Pn))) g)
    as (child & -> & Ho & Hs & Hg & Hd & Hrefs);
    [fold Kn; lia | fold Kn; lia | exact HgK |].
  cbn [bind]. exists child. split; [reflexivity|].
  rewrite is_null_as_foreign in Hs, Hg, Hrefs. fold Kn in Hs, Hrefs.
  split; [exact Ho|].
  assert (Hnull : is_null (data parent) = true -> g = 0).
  { intros Hn. destruct (N.eq_dec (size parent) 0) as [Hz|Hnz].
    - rewrite Hsize in Hz. nia.
    - rewrite (storage_invariant_not_null _ Hst Hnz) in Hn. discriminate. }
  destruct (is_null (data parent)) eqn:Hn.
  - rewrite (Hnull eq_refl) in *.
    split; [exact Hg|]. split; [rewrite Hs; lia|]. split; [exact Hd|].
    intros Hg0. contradiction Hg0. reflexivity.
  - split; [exact Hg|]. split; [exact Hs|]. split; [exact Hd|].
    intros Hg0 Hset. rewrite (Hrefs eq_refl Hg0), Hset.
    fold g.
    rewrite !tensor_references_are_blocks by (fold component_count; nia).
    cbn [cv_data cv_reset]. fold component_count. fold Kn.
    rewrite skipn_map, firstn_map, skipn_seq, firstn_seq_within by lia.
    rewrite map_map, (map_seq_shift _ (0 + Pn) Kn).
    apply map_ext. intros j.
    unfold ref_as_foreign. cbn [dv_data dv_size]. f_equal.
    rewrite <- as_foreign_add, pointer_add_add. f_equal. f_equal. lia.
Qed.

(** X10.  [reference_with_different_prefixes] of a consistent object
    returns a view of all of it: it does not own its data, it has the grid
    points, the size and the data pointer of the object, and where the
    tensors of the object refer into its buffer the tensors of the view are
    the same. *)
Theorem reference_with_different_prefixes_shares_the_tensors
  (parent : Variables) (storage : buffer)
  (static_address dynamic_address : N) :
  class_invariant parent ->
  storage_invariant parent ->
  component_count <> 0%nat ->
  N.of_nat component_count < size_t_modulus ->
  number_of_grid_points parent * N.of_nat component_count
  < size_t_modulus ->
  exists child : Variables,
    reference_with_different_prefixes parent storage static_address
      dynamic_address
    = Returns child
    /\ is_owning child = false
    /\ number_of_grid_points child = number_of_grid_points parent
    /\ size child = size parent
    /\ data child = as_foreign static_address dynamic_address (data parent)
    /\ (number_of_grid_points parent <> 0 ->
        references_set parent ->
        reference_variable_data_ _ child
        = map (map (ref_as_foreign static_address dynamic_address))
            (reference_variable_data_ _ parent)).
Proof.
  intros Hcl Hst HT0 HT Hwrap.
  set (g := number_of_grid_points parent) in *.
  assert (Hnic : components = N.of_nat component_count).
  { unfold number_of_independent_components. rewrite fold_left_add.
    apply size_t_small. exact HT. }
  assert (Hsize : size parent = g * N.of_nat component_count).
  { unfold size, g, number_of_grid_points in *.
    rewrite Hcl, Hnic. apply size_t_small. exact Hwrap. }
  unfold reference_with_different_prefixes, VariablesModel.Variables_view.
  replace (size parent) with (size_t (g * components))
    by (symmetry; exact Hcl).
  destruct (set_data_ref_of_multiple tensor_sizes
              (default_members storage)
              (as_foreign static_address dynamic_address (data parent)) g)
    as (child & -> & Ho & Hs & Hg & Hd & Hrefs);
    [fold component_count; lia | exact HT | exact Hwrap |].
  exists child. split; [reflexivity|]. split; [exact Ho|].
  assert (Hnull_eq : is_null (as_foreign static_address dynamic_address
                               (data parent)) = is_null (data parent))
    by (destruct (data parent); reflexivity).
  rewrite Hnull_eq in Hs, Hg, Hrefs. fold component_count in Hs, Hrefs.
  assert (Hnull : is_null (data parent) = true -> g = 0).
  { intros Hn. destruct (N.eq_dec (size parent) 0) as [Hz|Hnz].
    - rewrite Hsize in Hz. nia.
    - rewrite (storage_invariant_not_null _ Hst Hnz) in Hn. discriminate. }
  rewrite Hnic, (size_t_small _ Hwrap).
  destruct (is_null (data parent)) eqn:Hn.
  - rewrite (Hnull eq_refl) in *.
    split; [exact Hg|]. split; [rewrite Hs; lia|]. split; [exact Hd|].
    intros Hg0. contradiction Hg0. reflexivity.
  - split; [exact Hg|]. split; [exact Hs|]. split; [exact Hd|].
    intros Hg0 Hset. rewrite (Hrefs eq_refl Hg0), Hset. fold g.
    rewrite (tensor_references_as_foreign _ _ _ _
               (cv_size (variable_data_ parent))).
    unfold data, cv_reset. destruct (variable_data_ parent). reflexivity.
Qed.

(** *** Resizing an owning object *)

(** X11.  [initialize] takes an owning object in any state whatever to a
    consistent one: asked for another number of grid points it returns when
    the allocation can be had (none is needed for one grid point), the
    object has the grid points asked for and their size, its view leads to
    its own storage, and foreign memory is as before. *)
Theorem initialize_makes_an_owner_consistent
  (v : Variables) (m : memory) (n : N) :
  is_owning v = true ->
  number_of_grid_points v <> n ->
  n = 1 \/ can_allocate (size_t (n * components)) = true ->
  exists v' : Variables,
    initialize v m n = Returns (v', m)
    /\ is_owning v' = true
    /\ number_of_grid_points v' = n
    /\ size v' = size_t (n * components)
    /\ class_invariant v'
    /\ storage_invariant v'.
Proof.
  intros Hown Hne Hcan.
  destruct (initialize v m n) as [[v' m']|f] eqn:Hinit.
  - destruct (initialize_resized _ _ _ _ _ Hown Hne Hinit)
      as (-> & Ho & Hg & Hs & Hrest).
    exists v'. split; [reflexivity|].
    repeat (split; [assumption|]). split.
    + unfold VariablesModel.class_invariant, size, number_of_grid_points in *.
      rewrite Hs, Hg. reflexivity.
    + intros Hnz. destruct (Hrest Hnz) as (Hview & Hheap & _).
      unfold is_owning, number_of_grid_points, size, data in *.
      rewrite Hview, Ho, Hg. cbn [cv_size cv_data cv_reset].
      split; [reflexivity|].
      destruct (n =? 1); [reflexivity|]. split; [reflexivity|exact Hheap].
  - exfalso.
    destruct (initialize_of_owner v m n f Hown Hinit) as (_ & Hn & Hc).
    destruct Hcan as [H|H]; [contradiction|congruence].
Qed.

(** X12.  Asking an owning object with grid points for none does not
    release its allocation: the object has no grid points and no elements
    then, and [contains_allocations] denies an allocation, while the
    [unique_ptr] and the view are what they were.  The next
    [initialize(0)] releases the allocation and leaves the view as it
    is. *)
Theorem initialize_to_no_grid_points_keeps_the_allocation
  (v : Variables) (m : memory) :
  is_owning v = true ->
  number_of_grid_points v <> 0 ->
  exists v1 v2 : Variables,
    initialize v m 0 = Returns (v1, m)
    /\ initialize v1 m 0 = Returns (v2, m)
    /\ number_of_grid_points v1 = 0
    /\ size v1 = 0
    /\ contains_allocations v1 = false
    /\ holds_heap_storage v1 = holds_heap_storage v
    /\ variable_data_ v1 = variable_data_ v
    /\ holds_heap_storage v2 = false
    /\ variable_data_ v2 = variable_data_ v.
Proof.
  unfold is_owning, number_of_grid_points. intros Hown Hne.
  exists (set_size _ 0 (set_number_of_grid_points _ 0 v)).
  exists (set_number_of_grid_points _ 0
            (set_size _ 0
               (set_dynamic _ None
                  (set_size _ 0 (set_number_of_grid_points _ 0 v))))).
  split; [|split].
  - unfold VariablesModel.initialize.
    apply N.eqb_neq in Hne. rewrite Hne. cbv iota. rewrite Hne.
    unfold is_owning. rewrite Hown. reflexivity.
  - reflexivity.
  - repeat split.
Qed.

End Operations.

Arguments storage_invariant {value_type} v.
Arguments holds_heap_storage {value_type} v.
Arguments contains_allocations {value_type} v.
Arguments same_bookkeeping {value_type} v' v.
Arguments element {value_type} v m k.

(** *** The scalar and the spatial vector again

    The objects of [VariablesModel] and two owning ones, in a Debug build;
    a move leaves an empty [CustomVector] behind, and the elements are
    multiplied and divided as natural numbers. *)

Local Abbreviation sample_initialize :=
  (initialize N sample_tags true false 999 (fun _ _ => 0)
     (fun k => k <=? 1024)).
Local Abbreviation sample_initialize_with_value :=
  (initialize_with_value N sample_tags true false 999 (fun _ _ => 0)
     (fun k => k <=? 1024)).
Local Abbreviation sample_class_invariant :=
  (class_invariant N sample_tags).
Local Abbreviation sample_default :=
  (default_members N sample_tags sample_storage).
Local Abbreviation sample_moved_from_view :=
  (fun _ : custom_vector => cv_empty).

(** [Variables v(3)] and [Variables v(1)] *)
Definition sample_owner : Variables N :=
  match sample_initialize sample_default sample_memory 3 with
  | Returns r => fst r
  | Aborts _ => sample_default
  end.

Definition sample_single : Variables N :=
  match sample_initialize sample_default sample_memory 1 with
  | Returns r => fst r
  | Aborts _ => sample_default
  end.

Ltac by_computation :=
  vm_compute; first [reflexivity | discriminate | intros; discriminate].

Lemma sample_view_storage_invariant : storage_invariant sample_view.
Proof.
  intros _. split; [reflexivity|]. exists 1000.
  split; [reflexivity|by_computation].
Qed.

Lemma sample_owner_storage_invariant : storage_invariant sample_owner.
Proof.
  intros _. split; [reflexivity|]. split; reflexivity.
Qed.

Lemma sample_single_storage_invariant : storage_invariant sample_single.
Proof.
  intros _. split; reflexivity.
Qed.

(** The tensors of the view of eight elements: a scalar at the start, the
    three components of the vector behind it, two elements each. *)
Lemma tensors_of_sample_view :
  map (@List.length data_vector_ref)
    (reference_variable_data_ N sample_view)
  = map N.to_nat sample_tags
  /\ List.concat (reference_variable_data_ N sample_view)
     = map (fun j =>
              mk_data_vector_ref
                (pointer_add (data sample_view)
                   (N.of_nat j * number_of_grid_points sample_view))
                (number_of_grid_points sample_view))
         (seq 0 (component_count sample_tags)).
Proof.
  apply (tensors_are_consecutive_blocks N sample_tags true sample_view
           sample_view); by_computation.
Defined.

(** Three grid points are in an allocation, and [contains_allocations]
    says so. *)
Lemma storage_of_sample_owner :
  sample_memory = sample_memory
  /\ number_of_grid_points sample_owner = 3
  /\ is_owning sample_owner = true
  /\ contains_allocations sample_owner = holds_heap_storage sample_owner
  /\ (3 = 1 -> data sample_owner = static_storage 0)
  /\ (1 < 3 -> data sample_owner = dynamic_storage 0).
Proof.
  apply (constructed_storage_matches_contains_allocations N sample_tags
           true false 999 (fun _ _ => 0) (fun k => k <=? 1024)
           sample_storage sample_memory sample_memory 3 sample_owner);
    by_computation.
Defined.

(** The twelve elements of the new object are signaling NaNs. *)
Lemma signaling_NaNs_of_sample_owner :
  size sample_owner = size_t (3 * number_of_independent_components sample_tags)
  /\ data_values N sample_owner sample_memory
     = repeat (Some 999) (N.to_nat (size sample_owner)).
Proof.
  apply (initialize_fills_with_signaling_NaN N sample_tags true false 999
           (fun _ _ => 0) (fun k => k <=? 1024) sample_default
           sample_owner sample_memory sample_memory 3); by_computation.
Defined.

(** [v.initialize(2, 7)] on the view of eight elements *)
Definition sample_filled : Variables N * memory N :=
  match sample_initialize_with_value sample_view sample_memory 2 7 with
  | Returns r => r
  | Aborts _ => (sample_view, sample_memory)
  end.

(** The view of two grid points is filled through: its eight elements are
    [7], and so is foreign memory from 1000 to 1007 and nowhere else. *)
Lemma sample_view_filled_with_value :
  number_of_grid_points (fst sample_filled) = 2
  /\ data_values N (fst sample_filled) (snd sample_filled)
     = repeat (Some 7) (N.to_nat (size (fst sample_filled)))
  /\ (is_owning sample_view = true ->
      forall x : N, snd sample_filled x = sample_memory x)
  /\ (forall a x : N,
        data (fst sample_filled) = external_storage a ->
        x < a \/ a + size (fst sample_filled) <= x ->
        snd sample_filled x = sample_memory x).
Proof.
  apply (initialize_with_value_sets_every_element N sample_tags true false
           999 (fun _ _ => 0) (fun k => k <=? 1024) sample_view
           (fst sample_filled) sample_memory (snd sample_filled) 2 7).
  - exact sample_view_storage_invariant.
  - by_computation.
Defined.

(** [Variables w(std::move(v))] for the view [v], at address 5000 *)
Definition sample_moved_view : Variables N * Variables N :=
  match move_construct N sample_tags true sample_moved_from_view
          sample_storage sample_view 5000 with
  | Returns r => r
  | Aborts _ => (sample_default, sample_default)
  end.

(** What is left of the view after the move owns its data and is empty. *)
Lemma sample_view_after_the_move :
  is_owning (snd sample_moved_view) = true
  /\ number_of_grid_points (snd sample_moved_view) = 0
  /\ size (snd sample_moved_view) = 0
  /\ holds_heap_storage (snd sample_moved_view) = false
  /\ (forall m : memory N, data_values N (snd sample_moved_view) m = [])
  /\ (forall (m : memory N) (n : N) (f : failure),
        sample_initialize (snd sample_moved_view) m n = Aborts f ->
        f = bad_alloc).
Proof.
  apply (moved_from_object_is_an_empty_owner N sample_tags true false 999
           (fun _ _ => 0) (fun k => k <=? 1024) sample_moved_from_view
           sample_storage sample_default sample_view
           (fst sample_moved_view) (snd sample_moved_view) None
           (mk_placement 0 0 0) 5000).
  left. by_computation.
Defined.

(** The view of two grid points, moved into a new object, and assigned to
    the object of three grid points, whose array is at address 5000 and
    whose allocation of twelve elements is at address 3000: the eight
    elements of the view, from address 1000 on, are apart from both. *)
Lemma sample_view_moved :
  (exists this' : Variables N,
     move_construct N sample_tags true sample_moved_from_view sample_storage
       sample_view 6000
     = Returns (this', moved_from N sample_moved_from_view sample_view)
     /\ takes_over N sample_tags this' sample_view)
  /\ (exists this' : Variables N,
        move_assign N sample_tags true sample_moved_from_view sample_owner
          sample_view false (mk_placement 5000 3000 12) 6000
        = Returns
            (Some this', moved_from N sample_moved_from_view sample_view)
        /\ takes_over N sample_tags this' sample_view).
Proof.
  assert (H := move_keeps_size_and_elements N sample_tags true
                 sample_moved_from_view sample_storage sample_owner
                 sample_view (mk_placement 5000 3000 12) 6000).
  assert (Hcl : sample_class_invariant sample_view) by by_computation.
  specialize (H Hcl sample_view_storage_invariant).
  split; [exact (proj1 H)|].
  apply (proj2 H). intros a Ha. vm_compute in Ha. injection Ha as <-.
  split; [|intros _]; left; split;
    first [reflexivity | vm_compute; discriminate].
Defined.


(** The object of three grid points times the three numbers at address
    2000. *)
Lemma sample_owner_times_vector :
  exists (v' : Variables N) (m' : memory N),
    multiply_assign N sample_tags true N.mul sample_owner sample_memory
      (mk_data_vector_ref (external_storage 2000)
         (number_of_grid_points sample_owner))
    = Returns (Some (v', m'))
    /\ same_bookkeeping v' sample_owner
    /\ (forall c s : N,
          c < number_of_independent_components sample_tags ->
          s < number_of_grid_points sample_owner ->
          exists a : N,
            element sample_owner sample_memory
              (c * number_of_grid_points sample_owner + s)
            = Some a
            /\ element v' m' (c * number_of_grid_points sample_owner + s)
               = Some (N.mul a (sample_memory (2000 + s))))
    /\ (forall x : N,
          (forall a : N, data sample_owner = external_storage a ->
             x < a \/ a + size sample_owner <= x) ->
          m' x = sample_memory x).
Proof.
  apply (multiply_and_divide_scale_every_component N sample_tags true
           N.mul N.div sample_owner sample_memory 2000).
  - by_computation.
  - exact sample_owner_storage_invariant.
  - by_computation.
  - by_computation.
  - by_computation.
  - left. split; reflexivity.
Defined.

(** The vector of the object of three grid points as a view. *)
Lemma sample_owner_vector_subset :
  exists child : Variables N,
    reference_subset N sample_tags true sample_owner 1 1 sample_storage
      5000 6000
    = Returns (Some child)
    /\ is_owning child = false
    /\ number_of_grid_points child = number_of_grid_points sample_owner
    /\ size child
       = number_of_grid_points sample_owner
         * N.of_nat (components_of (subset_sizes sample_tags 1 1))
    /\ data child
       = as_foreign 5000 6000
           (pointer_add (data sample_owner)
              (number_of_grid_points sample_owner
               * N.of_nat (components_of (preceding_sizes sample_tags 1))))
    /\ (number_of_grid_points sample_owner <> 0 ->
        references_set N sample_tags sample_owner ->
        List.concat (reference_variable_data_ N child)
        = map (ref_as_foreign 5000 6000)
            (firstn (components_of (subset_sizes sample_tags 1 1))
               (skipn (components_of (preceding_sizes sample_tags 1))
                  (List.concat (reference_variable_data_ N sample_owner))))).
Proof.
  apply (reference_subset_shares_the_tensors N sample_tags true
           sample_owner 1 1 sample_storage 5000 6000).
  - by_computation.
  - exact sample_owner_storage_invariant.
  - by_computation.
  - by_computation.
  - by_computation.
Defined.

(** The object of three grid points as a view with other prefixes. *)
Lemma sample_owner_with_different_prefixes :
  exists child : Variables N,
    reference_with_different_prefixes N sample_tags true sample_owner
      sample_storage 5000 6000
    = Returns child
    /\ is_owning child = false
    /\ number_of_grid_points child = number_of_grid_points sample_owner
    /\ size child = size sample_owner
    /\ data child = as_foreign 5000 6000 (data sample_owner)
    /\ (number_of_grid_points sample_owner <> 0 ->
        references_set N sample_tags sample_owner ->
        reference_variable_data_ N child
        = map (map (ref_as_foreign 5000 6000))
            (reference_variable_data_ N sample_owner)).
Proof.
  apply (reference_with_different_prefixes_shares_the_tensors N sample_tags
           true sample_owner sample_storage 5000 6000).
  - by_computation.
  - exact sample_owner_storage_invariant.
  - by_computation.
  - by_computation.
  - by_computation.
Defined.

(** The view that was moved from, given three grid points. *)
Lemma sample_moved_from_initialized :
  exists v' : Variables N,
    sample_initialize (snd sample_moved_view) sample_memory 3
    = Returns (v', sample_memory)
    /\ is_owning v' = true
    /\ number_of_grid_points v' = 3
    /\ size v' = size_t (3 * number_of_independent_components sample_tags)
    /\ sample_class_invariant v'
    /\ storage_invariant v'.
Proof.
  apply (initialize_makes_an_owner_consistent N sample_tags true false 999
           (fun _ _ => 0) (fun k => k <=? 1024) (snd sample_moved_view)
           sample_memory 3).
  - by_computation.
  - by_computation.
  - right. by_computation.
Defined.

(** The object of three grid points, asked for none, twice. *)
Lemma sample_owner_without_grid_points :
  exists v1 v2 : Variables N,
    sample_initialize sample_owner sample_memory 0
    = Returns (v1, sample_memory)
    /\ sample_initialize v1 sample_memory 0 = Returns (v2, sample_memory)
    /\ number_of_grid_points v1 = 0
    /\ size v1 = 0
    /\ contains_allocations v1 = false
    /\ holds_heap_storage v1 = holds_heap_storage sample_owner
    /\ variable_data_ v1 = variable_data_ sample_owner
    /\ holds_heap_storage v2 = false
    /\ variable_data_ v2 = variable_data_ sample_owner.
Proof.
  apply (initialize_to_no_grid_points_keeps_the_allocation N sample_tags
           true false 999 (fun _ _ => 0) (fun k => k <=? 1024) sample_owner
           sample_memory); by_computation.
Defined.

(** An object of one grid point keeps its elements in the array inside
    it, and so does the object it is moved to. *)
Example single_grid_point_moves_into_the_array :
  data sample_single = static_storage 0
  /\ holds_heap_storage sample_single = false
  /\ match move_construct N sample_tags true sample_moved_from_view
             sample_storage sample_single 5000 with
     | Returns (this, _) =>
         data this = static_storage 0 /\ holds_heap_storage this = false
     | Aborts _ => False
     end.
Proof. by_computation || (vm_compute; repeat split). Qed.

(** In a Debug build a vector of another length stops [*=] at the
    assertion; a release build does not compare the lengths. *)
Example multiplication_by_a_shorter_vector :
  multiply_assign N sample_tags true N.mul sample_owner sample_memory
    (mk_data_vector_ref (external_storage 2000) 2)
  = Aborts (assertion_failed size_mismatch_in_multiplication [3; 2])
  /\ exists r,
       multiply_assign N sample_tags false N.mul sample_owner sample_memory
         (mk_data_vector_ref (external_storage 2000) 2)
       = Returns r.
Proof. split; [reflexivity|eexists; reflexivity]. Qed.

(** Views of the two owning objects with other prefixes: the array of the
    object of one grid point is at address 5000, the allocation of the
    object of three at address 3000. *)
Definition sample_single_view : Variables N :=
  match reference_with_different_prefixes N sample_tags true sample_single
          sample_storage 5000 3000 with
  | Returns v => v
  | Aborts _ => sample_default
  end.

Definition sample_owner_view : Variables N :=
  match reference_with_different_prefixes N sample_tags true sample_owner
          sample_storage 5000 3000 with
  | Returns v => v
  | Aborts _ => sample_default
  end.

(** Swapped with a view into its own array, the object of one grid point
    ends as a view of that array, which the assignment has overwritten with
    the array of the view: it does not read the [999] that the array
    held. *)
Example swap_with_a_view_of_the_array :
  data_values N sample_single sample_memory = repeat (Some 999) 4
  /\ data sample_single_view = external_storage 5000
  /\ match swap N sample_tags true sample_moved_from_view sample_single
             sample_single_view sample_storage 5000 6000 7000 with
     | Returns (Some lhs', _) =>
         is_owning lhs' = false
         /\ data lhs' = static_storage 0
         /\ data_values N lhs' sample_memory = repeat (Some 0) 4
     | _ => False
     end.
Proof. vm_compute. repeat split. Qed.

(** Assigned a view of its own allocation, the object of three grid points
    releases the allocation and is left with a pointer into it. *)
Example move_assign_from_a_view_of_the_allocation :
  data sample_owner_view = external_storage 3000
  /\ move_assign N sample_tags true sample_moved_from_view sample_owner
       sample_owner_view false (mk_placement 5000 3000 12) 6000
     = Returns (None, moved_from N sample_moved_from_view sample_owner_view).
Proof. split; reflexivity. Qed.

End VariablesOperations.
